(** * infinitystone/views/rbac.py : role assignment under a nullable scope

    A shallow embedding of the RBAC view handlers.  The handlers build SQL
    text and run it on a connection; here a WHERE clause is a list of
    AND-joined terms with positional [?] markers, a table is the list of its
    rows, and a Python exception is the [Raise] branch of [result].

    Layout: values and exceptions; the SQL fragment; tables and request;
    [parse_sql_where] (contract and model); the handlers; the predicates
    and sample tables of the statements; lemmas; the statements C1..C10;
    their instances on the sample tables. *)

From Stdlib Require Import String Ascii List Bool Arith Lia.
Import ListNotations.
Open Scope string_scope.
Open Scope list_scope.

(** ** Python values and exceptions *)

(** A [str] or [None]; also a nullable TEXT column ([None] is SQL NULL).
    Two texts are equal in SQL when they are the same string (the binary
    collation). *)
Definition value := option string.

(** [str(v)], as the [%s] conversion applies it. *)
Definition pystr (v : value) : string :=
  match v with
  | Some s => s
  | None => "None"
  end.

(** [c.lower()] on one code unit.  Strings are byte strings here: only
    A..Z change.  The non-ASCII letters Python also lowers never lower into
    a letter of "none", so the comparison with "none" is the same. *)
Definition lower_ascii (c : ascii) : ascii :=
  let n := nat_of_ascii c in
  if Nat.leb 65 n && Nat.leb n 90 then ascii_of_nat (n + 32) else c.

Fixpoint lower (s : string) : string :=
  match s with
  | EmptyString => EmptyString
  | String c s' => String (lower_ascii c) (lower s')
  end.

(** The exceptions the handlers raise or let through.  [HTTPNotFound]
    carries the [where] dict whose [repr] the message embeds; [TypeError] is
    subscripting [None]; [DatabaseError] is the driver refusing a
    statement (unknown column, wrong number of bindings). *)
Inductive exn : Type :=
| ValidationError (msg : string)
| AccessDenied (msg : string)
| HTTPNotFound (where_ : list (string * value))
| TypeError
| DatabaseError.

Inductive result (A : Type) : Type :=
| Ok (a : A)
| Raise (e : exn).
Arguments Ok {A} a.
Arguments Raise {A} e.

Definition bind {A B : Type} (m : result A) (f : A -> result B) : result B :=
  match m with
  | Ok a => f a
  | Raise e => Raise e
  end.

Notation "x <- m ;; k" := (bind m (fun x => k))
  (at level 61, m at next level, right associativity).

(** ** The SQL fragment the handlers emit *)

Module Sql.

(** An operand: a column name, a quoted string literal, or a [?]. *)
Inductive operand : Type :=
| Col (name : string)
| Lit (s : string)
| Qmark.

(** One AND-joined term of a WHERE clause. *)
Inductive term : Type :=
| Eq (a b : operand)
| IsNull (a : operand)
| Or (p q : term).

(** SQL's three truth values: [None] is UNKNOWN. *)
Definition tri := option bool.

Definition eq3 (x y : value) : tri :=
  match x, y with
  | Some a, Some b => Some (String.eqb a b)
  | _, _ => None
  end.

Definition or3 (x y : tri) : tri :=
  match x, y with
  | Some true, _ | _, Some true => Some true
  | Some false, Some false => Some false
  | _, _ => None
  end.

Definition and3 (x y : tri) : tri :=
  match x, y with
  | Some false, _ | _, Some false => Some false
  | Some true, Some true => Some true
  | _, _ => None
  end.

Section Eval.
Context {R : Type}.
(** The row's columns by name; [None] for a column the table lacks. *)
Variable column : R -> string -> option value.
Variable r : R.

(** Operands take their [?] bindings left to right. *)
Definition eval_operand (o : operand) (vals : list value)
  : option (value * list value) :=
  match o with
  | Col c =>
      match column r c with
      | Some v => Some (v, vals)
      | None => None
      end
  | Lit s => Some (Some s, vals)
  | Qmark =>
      match vals with
      | v :: vals' => Some (v, vals')
      | [] => None
      end
  end.

Fixpoint eval_term (t : term) (vals : list value)
  : option (tri * list value) :=
  match t with
  | Eq a b =>
      match eval_operand a vals with
      | Some (x, vals1) =>
          match eval_operand b vals1 with
          | Some (y, vals2) => Some (eq3 x y, vals2)
          | None => None
          end
      | None => None
      end
  | IsNull a =>
      match eval_operand a vals with
      | Some (x, vals1) =>
          Some (Some (match x with None => true | Some _ => false end),
                vals1)
      | None => None
      end
  | Or p q =>
      match eval_term p vals with
      | Some (x, vals1) =>
          match eval_term q vals1 with
          | Some (y, vals2) => Some (or3 x y, vals2)
          | None => None
          end
      | None => None
      end
  end.

Fixpoint eval_where (w : list term) (vals : list value)
  : option (tri * list value) :=
  match w with
  | [] => Some (Some true, vals)
  | t :: w' =>
      match eval_term t vals with
      | Some (x, vals1) =>
          match eval_where w' vals1 with
          | Some (y, vals2) => Some (and3 x y, vals2)
          | None => None
          end
      | None => None
      end
  end.

(** Whether the row is selected: the clause is TRUE (not UNKNOWN) and
    the bindings are used up; [None] when the statement is refused. *)
Definition selects (w : list term) (vals : list value) : option bool :=
  match eval_where w vals with
  | Some (Some true, []) => Some true
  | Some (_, []) => Some false
  | _ => None
  end.
End Eval.

(** The rows a WHERE clause keeps and the rows it leaves, in table order. *)
Fixpoint partition_rows {R : Type} (column : R -> string -> option value)
  (w : list term) (vals : list value) (rows : list R)
  : result (list R * list R) :=
  match rows with
  | [] => Ok ([], [])
  | r :: rows' =>
      match selects column r w vals with
      | None => Raise DatabaseError
      | Some b =>
          p <- partition_rows column w vals rows' ;;
          Ok (if b then (r :: fst p, snd p) else (fst p, r :: snd p))
      end
  end.

(** [SELECT ... FROM rows WHERE w]: the cursor's pending rows. *)
Definition select {R : Type} column w vals (rows : list R)
  : result (list R) :=
  p <- partition_rows column w vals rows ;; Ok (fst p).

(** [DELETE FROM rows WHERE w]: the table left and [cur.rowcount]. *)
Definition delete {R : Type} column w vals (rows : list R)
  : result (list R * nat) :=
  p <- partition_rows column w vals rows ;; Ok (snd p, length (fst p)).

(** [cur.fetchone()]. *)
Definition fetchone {R : Type} (cur : list R) : option R :=
  match cur with
  | r :: _ => Some r
  | [] => None
  end.

End Sql.
Import Sql.

(** ** Tables *)

(** A row of [luxon_role] (the columns the handlers read). *)
Record role_row : Type := {
  r_id : string;
  r_name : string
}.

(** A row of [luxon_user] (the columns the handlers read). *)
Record user_row : Type := {
  u_id : string;
  u_domain : value;
  u_tenant_id : value
}.

(** A row of [luxon_user_role], in the column order of the INSERT. *)
Record user_role_row : Type := {
  ur_id : string;
  ur_role_id : string;
  ur_tenant_id : value;
  ur_user_id : string;
  ur_domain : value;
  ur_creation_time : string
}.

Definition role_column (r : role_row) (c : string) : option value :=
  if c =? "id" then Some (Some (r_id r))
  else if c =? "name" then Some (Some (r_name r))
  else None.

Definition user_column (r : user_row) (c : string) : option value :=
  if c =? "id" then Some (Some (u_id r))
  else if c =? "domain" then Some (u_domain r)
  else if c =? "tenant_id" then Some (u_tenant_id r)
  else None.

Definition user_role_column (r : user_role_row) (c : string)
  : option value :=
  if c =? "id" then Some (Some (ur_id r))
  else if c =? "role_id" then Some (Some (ur_role_id r))
  else if c =? "tenant_id" then Some (ur_tenant_id r)
  else if c =? "user_id" then Some (Some (ur_user_id r))
  else if c =? "domain" then Some (ur_domain r)
  else if c =? "creation_time" then Some (Some (ur_creation_time r))
  else None.

(** What a connection sees: the three tables. *)
Record db : Type := {
  luxon_role : list role_row;
  luxon_user : list user_row;
  luxon_user_role : list user_role_row
}.

(** ** The request *)

Record request : Type := {
  token_user_id : string;
  headers : list (string * string)
}.

(** [req.get_header(name, default=None)]. *)
Fixpoint get_header (hs : list (string * string)) (name : string) : value :=
  match hs with
  | [] => None
  | (k, v) :: hs' => if k =? name then Some v else get_header hs' name
  end.

(** Truth value of a [str] or [None] in an [if]. *)
Definition truthy (v : value) : bool :=
  match v with
  | Some s => negb (s =? "")
  | None => false
  end.

(** ** infinitystone.utils.api *)

(** Modelled from the spec: the contract of [parse_sql_where], which the
    handlers import from [infinitystone.utils.api] (not among the sources).
    The spec has it build a parameterized conjunctive predicate with
    null-aware equality: on every row the clause takes exactly the bindings
    returned with it and is TRUE exactly when each field of the dict equals
    the row's column of that name, a [None] field matching a NULL column
    and nothing else. *)
Definition null_aware_conjunction
  (parse_sql_where : list (string * value) -> list term * list value)
  : Prop :=
  forall (R : Type) (column : R -> string -> option value) (r : R)
         (where_ : list (string * value)) (more : list value),
    (forall k v, In (k, v) where_ -> column r k <> None) ->
    exists t : tri,
      eval_where column r (fst (parse_sql_where where_))
        (snd (parse_sql_where where_) ++ more) = Some (t, more) /\
      (t = Some true <->
       forall k v, In (k, v) where_ -> column r k = Some v).

Module Api.

(** Modelled from the spec: [parse_sql_where] is not among the sources.
    The spec has it turn a map of scoping fields into a parameterized
    conjunction in which a field whose value is null must match rows where
    that column is null: a [None] value gives [k IS NULL] and no binding,
    any other value gives [k=?] and one binding, in the dict's order. *)
Fixpoint parse_sql_where (where_ : list (string * value))
  : list term * list value :=
  match where_ with
  | [] => ([], [])
  | (k, v) :: rest =>
      let '(query, vals) := parse_sql_where rest in
      match v with
      | None => (IsNull (Col k) :: query, vals)
      | Some _ => (Eq (Col k) Qmark :: query, v :: vals)
      end
  end.

End Api.

(** ** views/rbac.py *)

Section Rbac.

(** The imported [parse_sql_where]: the handlers are read for any such
    function, the statements for any that keeps [null_aware_conjunction]. *)
Variable parse_sql_where : list (string * value) -> list term * list value.

Definition root_id : string := "00000000-0000-0000-0000-000000000000".

(** The message of [check_unique]'s [ValidationError]. *)
Definition unique_msg (id role : string) (domain tenant_id : value) : string :=
  "Entry for user '" ++ id ++ "' role '" ++ role
  ++ "' already exists on domain '" ++ pystr domain
  ++ "' and tenant '" ++ pystr tenant_id ++ "'.".

Definition check_unique (conn : db) (id role : string)
  (domain tenant_id : value) : result unit :=
  let sql := [Eq (Col "user_id") Qmark; Eq (Col "role_id") Qmark] in
  let vals := [Some id; Some role] in
  let where_ := [("domain", domain); ("tenant_id", tenant_id)] in
  let '(query, addvals) := parse_sql_where where_ in
  let sql := sql ++ query in
  cur <- select user_role_column sql (vals ++ addvals) (luxon_user_role conn) ;;
  match fetchone cur with
  | Some _ => Raise (ValidationError (unique_msg id role domain tenant_id))
  | None => Ok tt
  end.

(** The two messages of [check_context_auth]'s [AccessDenied]. *)
Definition not_authorized_msg (req_user_id : string)
  (domain tenant_id : value) : string :=
  "User " ++ req_user_id ++ " not authorized in requested context "
  ++ ": domain '" ++ pystr domain
  ++ "', tenant_id '" ++ pystr tenant_id ++ "'".

Definition not_exist_msg (user_id : string) (domain tenant_id : value)
  : string :=
  "User " ++ user_id ++ " does not exist in context - "
  ++ "domain: '" ++ pystr domain
  ++ "', tenant_id: '" ++ pystr tenant_id ++ "'".

(** [g_current_request] is [g.current_request], which the function reads
    from the ambient context. *)
Definition check_context_auth (g_current_request : request) (conn : db)
  (user_id : string) (domain tenant_id : value) : result unit :=
  let req_user_id := token_user_id g_current_request in
  _ <- (if negb (req_user_id =? root_id) then
          cur <- select role_column [Eq (Col "name") Qmark]
                   [Some "Administrator"] (luxon_role conn) ;;
          admin_id <- match fetchone cur with
                      | Some row => Ok (r_id row)
                      | None => Raise TypeError
                      end ;;
          let where_ := [("user_id", Some req_user_id);
                         ("domain", domain);
                         ("tenant_id", tenant_id)] in
          let '(query, vals) := parse_sql_where where_ in
          let query :=
            query ++ [Or (Eq (Lit "role_id") (Lit root_id))
                         (Eq (Col "role_id") Qmark)] in
          let vals := vals ++ [Some admin_id] in
          cur <- select user_role_column query vals (luxon_user_role conn) ;;
          match fetchone cur with
          | None => Raise (AccessDenied
                             (not_authorized_msg req_user_id domain tenant_id))
          | Some _ => Ok tt
          end
        else Ok tt) ;;
  let where_ := [("id", Some user_id);
                 ("domain", domain);
                 ("tenant_id", tenant_id)] in
  let '(query, vals) := parse_sql_where where_ in
  cur <- select user_column query vals (luxon_user conn) ;;
  match fetchone cur with
  | None => Raise (AccessDenied (not_exist_msg user_id domain tenant_id))
  | Some _ => Ok tt
  end.

(** [sub in s] on two [str]: [sub] occurs in [s] as a contiguous run. *)
Fixpoint str_in (sub s : string) : bool :=
  match s with
  | EmptyString => prefix sub EmptyString
  | String _ s' => prefix sub s || str_in sub s'
  end.

(** [req.query_params.get(name)]. *)
Fixpoint query_get (query_params : list (string * string)) (name : string)
  : value :=
  match query_params with
  | [] => None
  | (k, v) :: rest => if k =? name then Some v else query_get rest name
  end.

(** The loop of [rbac_domains]: [filtered] grows by [append]; [search in
    domain] on a [None] domain raises TypeError. *)
Fixpoint filter_loop (search : string) (domains_list filtered : list value)
  : result (list value) :=
  match domains_list with
  | [] => Ok filtered
  | domain :: rest =>
      match domain with
      | None => Raise TypeError
      | Some d =>
          filter_loop search rest
            (if str_in search d then filtered ++ [domain] else filtered)
      end
  end.

(** [rbac_domains].  [user_domains] is the function imported from
    [infinitystone.utils.auth] (not among the sources): the domains of a
    user, each a [str] or [None]; [query_params] is [req.query_params]. *)
Definition rbac_domains (user_domains : string -> list value)
  (query_params : list (string * string)) (req : request)
  : result (list value) :=
  let search := query_get query_params "term" in
  let domains_list := user_domains (token_user_id req) in
  match search with
  | Some search => filter_loop search domains_list []
  | None => Ok domains_list
  end.

(** [user_roles]: the rows [cur.fetchall()] hands to [json.dumps]. *)
Definition user_roles (conn : db) (req : request) (id : string)
  : result (list user_role_row) :=
  let sql := [Eq (Col "user_id") Qmark] in
  let vals := [Some id] in
  let domain := get_header (headers req) "X-Domain" in
  let '(sql, vals) :=
    if truthy domain then (sql ++ [Eq (Col "domain") Qmark], vals ++ [domain])
    else (sql, vals) in
  let tenant_id := get_header (headers req) "X-Tenant-Id" in
  let '(sql, vals) :=
    if truthy tenant_id
    then (sql ++ [Eq (Col "tenant_id") Qmark], vals ++ [tenant_id])
    else (sql, vals) in
  select user_role_column sql vals (luxon_user_role conn).

(** [add_user_role].  [uuid4] and [now] are what [str(uuid4())] and [now()]
    return in this call.  The result is the [user_role] dict that is dumped,
    with the tables as the call leaves them.  The INSERT appends the row:
    the table's own constraints are declared outside this file and a fresh
    [uuid4] is taken for granted. *)
Definition add_user_role (conn : db) (uuid4 now : string) (req : request)
  (id role : string) (domain tenant_id : value)
  : result (list (string * value)) * db :=
  let domain :=
    match domain with
    | Some d => if lower d =? "none" then None else domain
    | None => domain
    end in
  match (_ <- check_context_auth req conn id domain tenant_id ;;
         check_unique conn id role domain tenant_id) with
  | Raise e => (Raise e, conn)
  | Ok _ =>
      let user_role_id := uuid4 in
      let row := {| ur_id := user_role_id; ur_role_id := role;
                    ur_tenant_id := tenant_id; ur_user_id := id;
                    ur_domain := domain; ur_creation_time := now |} in
      let conn := {| luxon_role := luxon_role conn;
                     luxon_user := luxon_user conn;
                     luxon_user_role := luxon_user_role conn ++ [row] |} in
      let user_role := [("id", Some user_role_id);
                        ("user_id", Some id);
                        ("role_id", Some role);
                        ("domain", domain);
                        ("tenant_id", tenant_id)] in
      (Ok user_role, conn)
  end.

(** [rm_user_role]: [Ok tt] is the empty body. *)
Definition rm_user_role (conn : db) (req : request) (id role : string)
  (domain tenant_id : value) : result unit * db :=
  let where_ := [("user_id", Some id);
                 ("role_id", Some role);
                 ("tenant_id", tenant_id);
                 ("domain", domain)] in
  let '(query, vals) := parse_sql_where where_ in
  match delete user_role_column query vals (luxon_user_role conn) with
  | Raise e => (Raise e, conn)
  | Ok (rows, rowcount) =>
      let conn := {| luxon_role := luxon_role conn;
                     luxon_user := luxon_user conn;
                     luxon_user_role := rows |} in
      if Nat.eqb rowcount 0 then (Raise (HTTPNotFound where_), conn)
      else (Ok tt, conn)
  end.

(** ** Scope predicates used in the statements *)

(** Null-aware equality: NULL matches only NULL. *)
Definition value_eqb (a b : value) : bool :=
  match a, b with
  | None, None => true
  | Some x, Some y => x =? y
  | _, _ => false
  end.

(** The assignment row carries this (user, role, domain, tenant) tuple. *)
Definition same_tuple (id role : string) (domain tenant_id : value)
  (r : user_role_row) : bool :=
  (ur_user_id r =? id) && (ur_role_id r =? role)
  && value_eqb (ur_domain r) domain && value_eqb (ur_tenant_id r) tenant_id.

(** The user row is this user in this scope. *)
Definition user_in_scope (id : string) (domain tenant_id : value)
  (u : user_row) : bool :=
  (u_id u =? id) && value_eqb (u_domain u) domain
  && value_eqb (u_tenant_id u) tenant_id.

(** The domain as [add_user_role] rebinds it in its first two lines. *)
Definition normalized (domain : value) : value :=
  match domain with
  | Some d => if lower d =? "none" then None else domain
  | None => domain
  end.

(** The tables after the INSERT of [add_user_role]. *)
Definition with_assignment (conn : db) (row : user_role_row) : db :=
  {| luxon_role := luxon_role conn;
     luxon_user := luxon_user conn;
     luxon_user_role := luxon_user_role conn ++ [row] |}.

(** The tables after the DELETE of [rm_user_role]. *)
Definition without_tuple (conn : db) (id role : string)
  (domain tenant_id : value) : db :=
  {| luxon_role := luxon_role conn;
     luxon_user := luxon_user conn;
     luxon_user_role :=
       filter (fun r => negb (same_tuple id role domain tenant_id r))
         (luxon_user_role conn) |}.

(** The row is listed for this user under the two header values: a header
    narrows only when its value is truthy. *)
Definition listed (id : string) (domain tenant_id : value)
  (r : user_role_row) : bool :=
  (ur_user_id r =? id)
  && (if truthy domain then value_eqb (ur_domain r) domain else true)
  && (if truthy tenant_id then value_eqb (ur_tenant_id r) tenant_id
      else true).

(** The request's headers without the header [name]. *)
Definition remove_header (name : string) (hs : list (string * string))
  : list (string * string) :=
  filter (fun kv => negb (fst kv =? name)) hs.

(** The target-user half of [check_context_auth]. *)
Definition target_check (conn : db) (user_id : string)
  (domain tenant_id : value) : result unit :=
  match fetchone (filter (user_in_scope user_id domain tenant_id)
                    (luxon_user conn)) with
  | None => Raise (AccessDenied (not_exist_msg user_id domain tenant_id))
  | Some _ => Ok tt
  end.

(** The requester half of [check_context_auth], for a requester other than
    root. *)
Definition requester_check (conn : db) (req_user_id : string)
  (domain tenant_id : value) : result unit :=
  match fetchone (filter (fun r => r_name r =? "Administrator")
                    (luxon_role conn)) with
  | None => Raise TypeError
  | Some row =>
      match fetchone (filter (same_tuple req_user_id (r_id row)
                                domain tenant_id)
                        (luxon_user_role conn)) with
      | None => Raise (AccessDenied
                         (not_authorized_msg req_user_id domain tenant_id))
      | Some _ => Ok tt
      end
  end.

(** The requester holds the role named Administrator in this scope: the
    first role row of that name, and an assignment row of the requester
    with that role id, this domain and this tenant. *)
Definition holds_administrator (conn : db) (req_user_id : string)
  (domain tenant_id : value) : Prop :=
  exists a r,
    fetchone (filter (fun x => r_name x =? "Administrator")
                (luxon_role conn)) = Some a /\
    In r (luxon_user_role conn) /\
    ur_user_id r = req_user_id /\ ur_role_id r = r_id a /\
    ur_domain r = domain /\ ur_tenant_id r = tenant_id.

(** The sixteen casings of the literal "none". *)
Definition none_casings : list string :=
  ["none"; "nonE"; "noNe"; "noNE"; "nOne"; "nOnE"; "nONe"; "nONE";
   "None"; "NonE"; "NoNe"; "NoNE"; "NOne"; "NOnE"; "NONe"; "NONE"].

(** The request with the header [name] left out. *)
Definition without_header (name : string) (req : request) : request :=
  {| token_user_id := token_user_id req;
     headers := remove_header name (headers req) |}.

(** The (user, role, domain, tenant) tuple of an assignment row. *)
Definition tuple_of (r : user_role_row) : string * string * value * value :=
  (ur_user_id r, ur_role_id r, ur_domain r, ur_tenant_id r).

(** The uniqueness invariant: no two rows carry the same tuple. *)
Definition unique_tuples (rows : list user_role_row) : Prop :=
  NoDup (map tuple_of rows).

(** The domain is a [str] that has [search] inside. *)
Definition has_term (search : string) (domain : value) : bool :=
  match domain with
  | Some d => str_in search d
  | None => false
  end.

(** The row [add_user_role] inserts. *)
Definition new_row (uuid4 now id role : string) (domain tenant_id : value)
  : user_role_row :=
  {| ur_id := uuid4; ur_role_id := role; ur_tenant_id := tenant_id;
     ur_user_id := id; ur_domain := normalized domain;
     ur_creation_time := now |}.

(** ** Sample tables *)

Definition request_of (user_id : string) : request :=
  {| token_user_id := user_id; headers := [] |}.

Definition alice : string := "e95ec7b1-4f0f-4c70-991f-4bb1bec6a524".
Definition bob : string := "7c0aa0f4-2f0e-4f0a-9a56-0d5c1a3b9e11".
Definition admin_role_id : string := "08034650-1438-4e56-b5a8-674ede74fe83".
Definition operator_role_id : string := "3b8c2d0e-6a1f-4d57-8f7e-1c2d3e4f5a6b".

Definition sample_roles : list role_row :=
  [{| r_id := operator_role_id; r_name := "Operator" |};
   {| r_id := admin_role_id; r_name := "Administrator" |}].

(** Alice and Bob are global users; Bob also exists in domain "default". *)
Definition sample_users : list user_row :=
  [{| u_id := alice; u_domain := None; u_tenant_id := None |};
   {| u_id := bob; u_domain := None; u_tenant_id := None |};
   {| u_id := bob; u_domain := Some "default"; u_tenant_id := None |}].

(** Alice holds only the all-zero role, globally. *)
Definition sentinel_only : db :=
  {| luxon_role := sample_roles;
     luxon_user := sample_users;
     luxon_user_role :=
       [{| ur_id := "a-1"; ur_role_id := root_id; ur_tenant_id := None;
           ur_user_id := alice; ur_domain := None;
           ur_creation_time := "2018-06-01 10:00:00" |}] |}.

(** Alice holds the Administrator role, globally. *)
Definition alice_administrator : db :=
  {| luxon_role := sample_roles;
     luxon_user := sample_users;
     luxon_user_role :=
       [{| ur_id := "a-1"; ur_role_id := admin_role_id; ur_tenant_id := None;
           ur_user_id := alice; ur_domain := None;
           ur_creation_time := "2018-06-01 10:00:00" |}] |}.

(** No assignments at all. *)
Definition no_assignments : db :=
  {| luxon_role := sample_roles;
     luxon_user := sample_users;
     luxon_user_role := [] |}.

(** Bob is Operator globally and in domain "none" (the four letters). *)
Definition bob_operator : db :=
  {| luxon_role := sample_roles;
     luxon_user := sample_users;
     luxon_user_role :=
       [{| ur_id := "a-2"; ur_role_id := operator_role_id;
           ur_tenant_id := None; ur_user_id := bob; ur_domain := None;
           ur_creation_time := "2018-06-01 10:00:00" |};
        {| ur_id := "a-3"; ur_role_id := operator_role_id;
           ur_tenant_id := None; ur_user_id := bob; ur_domain := Some "none";
           ur_creation_time := "2018-06-01 10:05:00" |};
        {| ur_id := "a-4"; ur_role_id := operator_role_id;
           ur_tenant_id := Some "t-9"; ur_user_id := bob;
           ur_domain := Some "default";
           ur_creation_time := "2018-06-01 10:06:00" |}] |}.

(** Bob's domains are all named; Alice's include the global one. *)
Definition sample_domains (user_id : string) : list value :=
  if user_id =? bob then [Some "default"; Some "lab"; Some "fab-lab"]
  else [None; Some "default"].

(** Whether a clause is TRUE. *)
Definition holds (t : tri) : bool :=
  match t with
  | Some true => true
  | _ => false
  end.

(** Whether the row has, null-aware, every field of the dict. *)
Definition has_fields {R : Type} (column : R -> string -> option value)
  (r : R) (where_ : list (string * value)) : bool :=
  forallb (fun kv => match column r (fst kv) with
                     | Some c => value_eqb c (snd kv)
                     | None => false
                     end) where_.

Hypothesis parse_sql_where_spec : null_aware_conjunction parse_sql_where.

(** ** The SQL model: selection is filtering *)

Lemma value_eqb_eq (a b : value) : value_eqb a b = true <-> a = b.
Proof.
  destruct a as [x|], b as [y|]; simpl; split; intro H;
    try discriminate; try reflexivity.
  - apply String.eqb_eq in H. now subst.
  - injection H as ->. apply String.eqb_refl.
Qed.

Lemma value_eqb_refl (a : value) : value_eqb a a = true.
Proof. now apply value_eqb_eq. Qed.

Lemma same_tuple_true id role domain tenant_id r :
  same_tuple id role domain tenant_id r = true <->
  ur_user_id r = id /\ ur_role_id r = role /\
  ur_domain r = domain /\ ur_tenant_id r = tenant_id.
Proof.
  unfold same_tuple.
  rewrite !andb_true_iff, !String.eqb_eq, !value_eqb_eq. tauto.
Qed.

Lemma user_in_scope_true id domain tenant_id u :
  user_in_scope id domain tenant_id u = true <->
  u_id u = id /\ u_domain u = domain /\ u_tenant_id u = tenant_id.
Proof.
  unfold user_in_scope.
  rewrite !andb_true_iff, !String.eqb_eq, !value_eqb_eq. tauto.
Qed.

Section Filtering.
Context {R : Type}.
Variable column : R -> string -> option value.
Variables (w : list term) (vals : list value) (p : R -> bool).
Hypothesis selects_p : forall r, selects column r w vals = Some (p r).

Lemma partition_rows_filter (rows : list R) :
  partition_rows column w vals rows =
  Ok (filter p rows, filter (fun r => negb (p r)) rows).
Proof.
  induction rows as [|r rows IH]; simpl; [reflexivity|].
  rewrite selects_p, IH. simpl. now destruct (p r).
Qed.

Lemma select_filter (rows : list R) :
  select column w vals rows = Ok (filter p rows).
Proof. unfold select. now rewrite partition_rows_filter. Qed.

Lemma delete_filter (rows : list R) :
  delete column w vals rows =
  Ok (filter (fun r => negb (p r)) rows, length (filter p rows)).
Proof. unfold delete. now rewrite partition_rows_filter. Qed.
End Filtering.

Lemma fetchone_filter_none {R : Type} (p : R -> bool) (rows : list R) :
  fetchone (filter p rows) = None <-> forall r, In r rows -> p r = false.
Proof.
  induction rows as [|r rows IH]; simpl.
  - tauto.
  - destruct (p r) eqn:E; simpl.
    + split; [discriminate|]. intro H. specialize (H r (or_introl eq_refl)).
      congruence.
    + rewrite IH. split.
      * intros H x [<-|Hx]; auto.
      * intros H x Hx. apply H. now right.
Qed.

Lemma fetchone_filter_some {R : Type} (p : R -> bool) (rows : list R) :
  (exists r, fetchone (filter p rows) = Some r) <->
  exists r, In r rows /\ p r = true.
Proof.
  split.
  - intros [r H]. exists r.
    assert (In r (filter p rows)) as Hin.
    { destruct (filter p rows); simpl in H; [discriminate|].
      injection H as ->. now left. }
    now apply filter_In in Hin.
  - intros [r [Hin Hp]].
    destruct (fetchone (filter p rows)) eqn:E; [eauto|].
    rewrite fetchone_filter_none in E. rewrite (E r Hin) in Hp. discriminate.
Qed.

(** ** Clauses joined by AND *)

Lemma and3_assoc (x y z : tri) : and3 x (and3 y z) = and3 (and3 x y) z.
Proof. now destruct x as [[]|], y as [[]|], z as [[]|]. Qed.

Lemma holds_and3 (x y : tri) : holds (and3 x y) = holds x && holds y.
Proof. now destruct x as [[]|], y as [[]|]. Qed.

Lemma eval_where_app {R : Type} (column : R -> string -> option value)
  (r : R) (w1 w2 : list term) (vals : list value) :
  eval_where column r (w1 ++ w2) vals =
  match eval_where column r w1 vals with
  | Some (x, vals1) =>
      match eval_where column r w2 vals1 with
      | Some (y, vals2) => Some (and3 x y, vals2)
      | None => None
      end
  | None => None
  end.
Proof.
  revert vals. induction w1 as [|t w1 IH]; intro vals; simpl.
  - now destruct (eval_where column r w2 vals) as [[[[]|] vals2]|].
  - destruct (eval_term column r t vals) as [[x vals1]|]; [|reflexivity].
    rewrite IH.
    destruct (eval_where column r w1 vals1) as [[y vals2]|]; [|reflexivity].
    destruct (eval_where column r w2 vals2) as [[z vals3]|]; [|reflexivity].
    now rewrite and3_assoc.
Qed.

Lemma selects_holds {R : Type} (column : R -> string -> option value)
  (r : R) (w : list term) (vals : list value) (t : tri) :
  eval_where column r w vals = Some (t, []) ->
  selects column r w vals = Some (holds t).
Proof. unfold selects. intros ->. now destruct t as [[]|]. Qed.

Lemma has_fields_true {R : Type} (column : R -> string -> option value)
  (r : R) (where_ : list (string * value)) :
  has_fields column r where_ = true <->
  forall k v, In (k, v) where_ -> column r k = Some v.
Proof.
  unfold has_fields. rewrite forallb_forall. split.
  - intros H k v Hin. specialize (H (k, v) Hin). simpl in H.
    destruct (column r k) as [c|]; [|discriminate].
    apply value_eqb_eq in H. now subst.
  - intros H [k v] Hin. simpl. rewrite (H k v Hin). apply value_eqb_refl.
Qed.

(** ** What each statement of the handlers selects *)

(** The clause [parse_sql_where] returns, read off its contract. *)
Lemma where_holds {R : Type} (column : R -> string -> option value) (r : R)
  (where_ : list (string * value)) (more : list value) :
  (forall k v, In (k, v) where_ -> column r k <> None) ->
  exists t,
    eval_where column r (fst (parse_sql_where where_))
      (snd (parse_sql_where where_) ++ more) = Some (t, more) /\
    holds t = has_fields column r where_.
Proof.
  intro Hcols.
  destruct (parse_sql_where_spec R column r where_ more Hcols)
    as [t [Ht Hiff]].
  exists t. split; [exact Ht|].
  rewrite <- has_fields_true in Hiff.
  destruct (has_fields column r where_).
  - now rewrite (proj2 Hiff eq_refl).
  - destruct t as [[]|]; try reflexivity.
    discriminate (proj1 Hiff eq_refl).
Qed.

Ltac split_where E :=
  let Eq_ := fresh in let Ev := fresh in
  pose proof (f_equal fst E) as Eq_; pose proof (f_equal snd E) as Ev;
  simpl in Eq_, Ev; subst.

Ltac known_columns :=
  let k := fresh "k" in let v := fresh "v" in let H := fresh "H" in
  intros k v H; simpl in H;
  repeat (destruct H as [H|H]; [injection H as <- <-; discriminate|]);
  destruct H.

Ltac bool_cases :=
  repeat match goal with
         | |- context [String.eqb ?a ?b] => destruct (String.eqb a b)
         | |- context [value_eqb ?a ?b] => destruct (value_eqb a b)
         end;
  reflexivity.

Lemma selects_check_unique id role domain tenant_id query addvals :
  parse_sql_where [("domain", domain); ("tenant_id", tenant_id)]
  = (query, addvals) ->
  forall r,
    selects user_role_column r
      ([Eq (Col "user_id") Qmark; Eq (Col "role_id") Qmark] ++ query)
      ([Some id; Some role] ++ addvals)
    = Some (same_tuple id role domain tenant_id r).
Proof.
  intros E [i ro t u d c]. split_where E.
  match goal with
  | |- context [parse_sql_where ?w] =>
      destruct (where_holds user_role_column
                  {| ur_id := i; ur_role_id := ro; ur_tenant_id := t;
                     ur_user_id := u; ur_domain := d;
                     ur_creation_time := c |} w [])
        as [x [Hx Hh]]; [known_columns|]
  end.
  rewrite app_nil_r in Hx.
  erewrite selects_holds; [|rewrite eval_where_app; cbn; rewrite Hx;
                            reflexivity].
  f_equal. rewrite holds_and3, Hh. unfold same_tuple. cbn. bool_cases.
Qed.

Lemma selects_administrator r :
  selects role_column r [Eq (Col "name") Qmark] [Some "Administrator"]
  = Some (r_name r =? "Administrator").
Proof.
  destruct r as [i n]. unfold selects. cbn.
  now destruct (n =? "Administrator").
Qed.

(** The requester's statement.  Its first alternative compares the quoted
    text 'role_id' with the all-zero id, two literals that differ: only the
    second alternative can hold. *)
Lemma selects_requester req_user_id domain tenant_id admin_id query vals :
  parse_sql_where [("user_id", Some req_user_id);
                   ("domain", domain); ("tenant_id", tenant_id)]
  = (query, vals) ->
  forall r,
    selects user_role_column r
      (query ++ [Or (Eq (Lit "role_id") (Lit root_id))
                    (Eq (Col "role_id") Qmark)])
      (vals ++ [Some admin_id])
    = Some (same_tuple req_user_id admin_id domain tenant_id r).
Proof.
  intros E [i ro t u d c]. split_where E.
  match goal with
  | |- context [parse_sql_where ?w] =>
      destruct (where_holds user_role_column
                  {| ur_id := i; ur_role_id := ro; ur_tenant_id := t;
                     ur_user_id := u; ur_domain := d;
                     ur_creation_time := c |} w [Some admin_id])
        as [x [Hx Hh]]; [known_columns|]
  end.
  erewrite selects_holds; [|rewrite eval_where_app, Hx; cbn; reflexivity].
  f_equal. rewrite holds_and3, Hh. unfold same_tuple. cbn. bool_cases.
Qed.

Lemma selects_target user_id domain tenant_id query vals :
  parse_sql_where [("id", Some user_id);
                   ("domain", domain); ("tenant_id", tenant_id)]
  = (query, vals) ->
  forall u,
    selects user_column u query vals
    = Some (user_in_scope user_id domain tenant_id u).
Proof.
  intros E [i d t]. split_where E.
  match goal with
  | |- context [parse_sql_where ?w] =>
      destruct (where_holds user_column
                  {| u_id := i; u_domain := d; u_tenant_id := t |} w [])
        as [x [Hx Hh]]; [known_columns|]
  end.
  rewrite app_nil_r in Hx.
  erewrite selects_holds; [|exact Hx].
  f_equal. rewrite Hh. unfold user_in_scope. cbn. bool_cases.
Qed.

Lemma selects_rm id role domain tenant_id query vals :
  parse_sql_where [("user_id", Some id); ("role_id", Some role);
                   ("tenant_id", tenant_id); ("domain", domain)]
  = (query, vals) ->
  forall r,
    selects user_role_column r query vals
    = Some (same_tuple id role domain tenant_id r).
Proof.
  intros E [i ro t u d c]. split_where E.
  match goal with
  | |- context [parse_sql_where ?w] =>
      destruct (where_holds user_role_column
                  {| ur_id := i; ur_role_id := ro; ur_tenant_id := t;
                     ur_user_id := u; ur_domain := d;
                     ur_creation_time := c |} w [])
        as [x [Hx Hh]]; [known_columns|]
  end.
  rewrite app_nil_r in Hx.
  erewrite selects_holds; [|exact Hx].
  f_equal. rewrite Hh. unfold same_tuple. cbn. bool_cases.
Qed.

(** ** The guards as list searches *)

Lemma check_unique_eq conn id role domain tenant_id :
  check_unique conn id role domain tenant_id =
  match fetchone (filter (same_tuple id role domain tenant_id)
                    (luxon_user_role conn)) with
  | Some _ => Raise (ValidationError (unique_msg id role domain tenant_id))
  | None => Ok tt
  end.
Proof.
  unfold check_unique. cbv zeta.
  destruct (parse_sql_where _) as [query addvals] eqn:E.
  now rewrite (select_filter _ _ _ _ (selects_check_unique id role _ _ _ _ E)).
Qed.

Lemma check_context_auth_eq req conn user_id domain tenant_id :
  check_context_auth req conn user_id domain tenant_id =
  (_ <- (if token_user_id req =? root_id then Ok tt
         else requester_check conn (token_user_id req) domain tenant_id) ;;
   target_check conn user_id domain tenant_id).
Proof.
  unfold check_context_auth, requester_check, target_check. cbv zeta.
  match goal with
  | |- context [parse_sql_where (("id", ?v) :: ?rest)] =>
      destruct (parse_sql_where (("id", v) :: rest)) as [qt vt] eqn:Et
  end.
  match goal with
  | |- context [parse_sql_where (("user_id", ?v) :: ?rest)] =>
      destruct (parse_sql_where (("user_id", v) :: rest)) as [qr vr] eqn:Er
  end.
  rewrite (select_filter _ _ _ _ (selects_target _ _ _ _ _ Et)).
  destruct (token_user_id req =? root_id); simpl negb; cbv iota;
    [reflexivity|].
  rewrite (select_filter _ _ _ _ selects_administrator).
  cbn [bind].
  destruct (fetchone (filter _ (luxon_role conn))) as [row|]; cbn [bind];
    [|reflexivity].
  rewrite (select_filter _ _ _ _
             (selects_requester _ _ _ (r_id row) _ _ Er)).
  cbn [bind].
  now destruct (fetchone (filter _ (luxon_user_role conn))).
Qed.

Lemma add_user_role_eq conn uuid4 now req id role domain tenant_id :
  add_user_role conn uuid4 now req id role domain tenant_id =
  match (_ <- check_context_auth req conn id (normalized domain) tenant_id ;;
         check_unique conn id role (normalized domain) tenant_id) with
  | Raise e => (Raise e, conn)
  | Ok _ =>
      (Ok [("id", Some uuid4); ("user_id", Some id); ("role_id", Some role);
           ("domain", normalized domain); ("tenant_id", tenant_id)],
       with_assignment conn
         {| ur_id := uuid4; ur_role_id := role; ur_tenant_id := tenant_id;
            ur_user_id := id; ur_domain := normalized domain;
            ur_creation_time := now |})
  end.
Proof. reflexivity. Qed.

Lemma rm_user_role_eq conn req id role domain tenant_id :
  rm_user_role conn req id role domain tenant_id =
  (if Nat.eqb (length (filter (same_tuple id role domain tenant_id)
                         (luxon_user_role conn))) 0
   then Raise (HTTPNotFound [("user_id", Some id); ("role_id", Some role);
                             ("tenant_id", tenant_id); ("domain", domain)])
   else Ok tt,
   without_tuple conn id role domain tenant_id).
Proof.
  unfold rm_user_role, without_tuple. cbv zeta.
  destruct (parse_sql_where _) as [query vals] eqn:E.
  rewrite (delete_filter _ _ _ _ (selects_rm _ _ _ _ _ _ E)).
  now destruct (Nat.eqb _ 0).
Qed.

Lemma selects_user_roles id domain tenant_id r :
  selects user_role_column r
    (([Eq (Col "user_id") Qmark]
      ++ (if truthy domain then [Eq (Col "domain") Qmark] else []))
     ++ (if truthy tenant_id then [Eq (Col "tenant_id") Qmark] else []))
    (([Some id] ++ (if truthy domain then [domain] else []))
     ++ (if truthy tenant_id then [tenant_id] else []))
  = Some (listed id domain tenant_id r).
Proof.
  destruct r as [i ro [t|] u [d|] c], domain as [d'|], tenant_id as [t'|];
    unfold listed, truthy, selects; cbn;
    try destruct (d' =? ""); try destruct (t' =? ""); cbn; bool_cases.
Qed.

Lemma user_roles_eq conn req id :
  user_roles conn req id =
  Ok (filter (listed id (get_header (headers req) "X-Domain")
                (get_header (headers req) "X-Tenant-Id"))
        (luxon_user_role conn)).
Proof.
  unfold user_roles. cbv zeta.
  rewrite <- (select_filter _ _ _ _
                (selects_user_roles id (get_header (headers req) "X-Domain")
                   (get_header (headers req) "X-Tenant-Id"))).
  destruct (truthy (get_header (headers req) "X-Domain"));
    destruct (truthy (get_header (headers req) "X-Tenant-Id"));
    cbn [app]; rewrite ?app_nil_r; reflexivity.
Qed.

Lemma requester_check_ok conn req_user_id domain tenant_id :
  requester_check conn req_user_id domain tenant_id = Ok tt <->
  holds_administrator conn req_user_id domain tenant_id.
Proof.
  unfold requester_check, holds_administrator. split.
  - destruct (fetchone (filter _ (luxon_role conn))) as [a|] eqn:Ea;
      [|discriminate].
    destruct (fetchone (filter _ (luxon_user_role conn))) as [r|] eqn:Er;
      [|discriminate].
    intros _.
    destruct (proj1 (fetchone_filter_some _ _) (ex_intro _ r Er))
      as [r' [Hin Hr']].
    apply same_tuple_true in Hr'. exists a, r'. tauto.
  - intros [a [r [-> [Hin H]]]].
    destruct (fetchone (filter _ (luxon_user_role conn))) eqn:Er;
      [reflexivity|].
    rewrite fetchone_filter_none in Er.
    assert (same_tuple req_user_id (r_id a) domain tenant_id r = true) as Ht
      by (apply same_tuple_true; tauto).
    rewrite (Er r Hin) in Ht. discriminate.
Qed.

Lemma target_check_ok conn user_id domain tenant_id :
  target_check conn user_id domain tenant_id = Ok tt <->
  exists u, In u (luxon_user conn) /\
            u_id u = user_id /\ u_domain u = domain /\
            u_tenant_id u = tenant_id.
Proof.
  unfold target_check. split.
  - destruct (fetchone (filter _ (luxon_user conn))) as [u|] eqn:Eu;
      [|discriminate].
    intros _.
    destruct (proj1 (fetchone_filter_some _ _) (ex_intro _ u Eu))
      as [u' [Hin Hu']].
    apply user_in_scope_true in Hu'. exists u'. tauto.
  - intros [u [Hin H]].
    destruct (fetchone (filter _ (luxon_user conn))) eqn:Eu; [reflexivity|].
    rewrite fetchone_filter_none in Eu.
    assert (user_in_scope user_id domain tenant_id u = true) as Ht
      by (apply user_in_scope_true; tauto).
    rewrite (Eu u Hin) in Ht. discriminate.
Qed.

Lemma target_check_absent conn user_id domain tenant_id :
  (forall u, In u (luxon_user conn) ->
             ~ (u_id u = user_id /\ u_domain u = domain /\
                u_tenant_id u = tenant_id)) ->
  target_check conn user_id domain tenant_id =
  Raise (AccessDenied (not_exist_msg user_id domain tenant_id)).
Proof.
  intro H. unfold target_check.
  destruct (fetchone (filter _ (luxon_user conn))) as [u|] eqn:Eu;
    [|reflexivity].
  destruct (proj1 (fetchone_filter_some _ _) (ex_intro _ u Eu))
    as [u' [Hin Hu']].
  apply user_in_scope_true in Hu'. now destruct (H u' Hin).
Qed.

Lemma check_unique_ok conn id role domain tenant_id :
  check_unique conn id role domain tenant_id = Ok tt <->
  ~ exists r, In r (luxon_user_role conn) /\
              ur_user_id r = id /\ ur_role_id r = role /\
              ur_domain r = domain /\ ur_tenant_id r = tenant_id.
Proof.
  rewrite check_unique_eq. split.
  - destruct (fetchone _) eqn:E; [discriminate|]. intros _ [r [Hin H]].
    rewrite fetchone_filter_none in E.
    apply same_tuple_true in H. rewrite (E r Hin) in H. discriminate.
  - intro H. destruct (fetchone _) as [r|] eqn:E; [|reflexivity].
    destruct (proj1 (fetchone_filter_some _ _) (ex_intro _ r E))
      as [r' [Hin Hr']].
    apply same_tuple_true in Hr'. destruct H. now exists r'.
Qed.

Lemma check_unique_raises conn id role domain tenant_id :
  check_unique conn id role domain tenant_id =
  Raise (ValidationError (unique_msg id role domain tenant_id)) <->
  exists r, In r (luxon_user_role conn) /\
            ur_user_id r = id /\ ur_role_id r = role /\
            ur_domain r = domain /\ ur_tenant_id r = tenant_id.
Proof.
  rewrite check_unique_eq. split.
  - destruct (fetchone _) as [r|] eqn:E; [|discriminate]. intros _.
    destruct (proj1 (fetchone_filter_some _ _) (ex_intro _ r E))
      as [r' [Hin Hr']].
    apply same_tuple_true in Hr'. now exists r'.
  - intros [r [Hin H]]. destruct (fetchone _) eqn:E; [reflexivity|].
    rewrite fetchone_filter_none in E.
    apply same_tuple_true in H. rewrite (E r Hin) in H. discriminate.
Qed.

(** ** Create: the two guards in sequence *)

Lemma guards_ok (a b : result unit) :
  (_ <- a ;; b) = Ok tt <-> a = Ok tt /\ b = Ok tt.
Proof.
  destruct a as [[]|e]; simpl; [tauto|].
  split; [discriminate|]. now intros [H _].
Qed.

Lemma add_user_role_ok conn uuid4 now req id role domain tenant_id :
  check_context_auth req conn id (normalized domain) tenant_id = Ok tt ->
  check_unique conn id role (normalized domain) tenant_id = Ok tt ->
  add_user_role conn uuid4 now req id role domain tenant_id =
  (Ok [("id", Some uuid4); ("user_id", Some id); ("role_id", Some role);
       ("domain", normalized domain); ("tenant_id", tenant_id)],
   with_assignment conn
     {| ur_id := uuid4; ur_role_id := role; ur_tenant_id := tenant_id;
        ur_user_id := id; ur_domain := normalized domain;
        ur_creation_time := now |}).
Proof.
  intros Ha Hu. rewrite add_user_role_eq, Ha. simpl. now rewrite Hu.
Qed.

Lemma add_user_role_ok_inv conn uuid4 now req id role domain tenant_id
  body conn' :
  add_user_role conn uuid4 now req id role domain tenant_id
  = (Ok body, conn') ->
  check_context_auth req conn id (normalized domain) tenant_id = Ok tt /\
  check_unique conn id role (normalized domain) tenant_id = Ok tt /\
  conn' = with_assignment conn
            {| ur_id := uuid4; ur_role_id := role; ur_tenant_id := tenant_id;
               ur_user_id := id; ur_domain := normalized domain;
               ur_creation_time := now |}.
Proof.
  rewrite add_user_role_eq.
  destruct (check_context_auth _ _ _ _ _) as [[]|e]; simpl;
    [|discriminate].
  destruct (check_unique _ _ _ _ _) as [[]|e]; [|discriminate].
  intros [= _ <-]. auto.
Qed.

Lemma add_user_role_raise_inv conn uuid4 now req id role domain tenant_id
  e conn' :
  add_user_role conn uuid4 now req id role domain tenant_id
  = (Raise e, conn') ->
  conn' = conn.
Proof.
  rewrite add_user_role_eq.
  destruct (_ <- _ ;; _) as [u|e']; [discriminate|]. now intros [= _ <-].
Qed.

(** An INSERT into [luxon_user_role] never revokes what the guard granted. *)
Lemma check_context_auth_with_assignment req conn row id domain tenant_id :
  check_context_auth req conn id domain tenant_id = Ok tt ->
  check_context_auth req (with_assignment conn row) id domain tenant_id
  = Ok tt.
Proof.
  rewrite !check_context_auth_eq, !guards_ok. intros [Hr Ht]. split.
  - destruct (token_user_id req =? root_id); [reflexivity|].
    apply requester_check_ok in Hr. apply requester_check_ok.
    destruct Hr as [a [r [Ha [Hin H]]]]. exists a, r.
    split; [exact Ha|]. split; [|exact H].
    simpl. apply in_or_app. now left.
  - exact Ht.
Qed.

Lemma normalized_some x : lower x <> "none" -> normalized (Some x) = Some x.
Proof.
  intro H. unfold normalized.
  destruct (lower x =? "none") eqn:E; [|reflexivity].
  apply String.eqb_eq in E. contradiction.
Qed.

(** ** Remove and List: auxiliary facts *)

Lemma length_filter_zero {R : Type} (p : R -> bool) (rows : list R) :
  Nat.eqb (length (filter p rows)) 0 = true <->
  forall r, In r rows -> p r = false.
Proof.
  rewrite Nat.eqb_eq, length_zero_iff_nil.
  rewrite <- fetchone_filter_none.
  destruct (filter p rows); simpl; split; congruence.
Qed.

Lemma filter_all_false {R : Type} (p : R -> bool) (rows : list R) :
  (forall r, In r rows -> p r = false) ->
  filter (fun r => negb (p r)) rows = rows.
Proof.
  induction rows as [|r rows IH]; simpl; intro H; [reflexivity|].
  rewrite (H r (or_introl eq_refl)). simpl. f_equal.
  apply IH. intros x Hx. apply H. now right.
Qed.

Lemma in_without_tuple conn id role domain tenant_id r :
  In r (luxon_user_role (without_tuple conn id role domain tenant_id)) <->
  In r (luxon_user_role conn) /\
  ~ (ur_user_id r = id /\ ur_role_id r = role /\
     ur_domain r = domain /\ ur_tenant_id r = tenant_id).
Proof.
  unfold without_tuple. simpl. rewrite filter_In.
  now rewrite negb_true_iff, <- not_true_iff_false, same_tuple_true.
Qed.

Lemma lower_ascii_inv (c l : ascii) :
  lower_ascii c = l ->
  (Nat.leb 97 (nat_of_ascii l) && Nat.leb (nat_of_ascii l) 122) = true ->
  c = l \/ c = ascii_of_nat (nat_of_ascii l - 32).
Proof.
  intros <-. destruct c as [[] [] [] [] [] [] [] []]; vm_compute;
    intro H; try discriminate H; auto.
Qed.

Lemma lower_none_casings (d : string) :
  lower d = "none" <-> In d none_casings.
Proof.
  split.
  - destruct d as [|c1 [|c2 [|c3 [|c4 [|c5 d]]]]]; simpl;
      intro H; try discriminate H.
    injection H as H1 H2 H3 H4.
    destruct (lower_ascii_inv _ _ H1 eq_refl) as [->| ->];
      destruct (lower_ascii_inv _ _ H2 eq_refl) as [->| ->];
      destruct (lower_ascii_inv _ _ H3 eq_refl) as [->| ->];
      destruct (lower_ascii_inv _ _ H4 eq_refl) as [->| ->];
      vm_compute; tauto.
  - intro H. repeat (destruct H as [<-|H]; [reflexivity|]). destruct H.
Qed.

Lemma normalized_casing d : In d none_casings -> normalized (Some d) = None.
Proof.
  intro H. apply lower_none_casings in H. unfold normalized. now rewrite H.
Qed.

Lemma listed_true id domain tenant_id r :
  listed id domain tenant_id r = true <->
  ur_user_id r = id /\
  (forall d, domain = Some d -> d <> "" -> ur_domain r = Some d) /\
  (forall t, tenant_id = Some t -> t <> "" -> ur_tenant_id r = Some t).
Proof.
  assert (forall sel col,
             (if truthy sel then value_eqb col sel else true) = true <->
             (forall s, sel = Some s -> s <> "" -> col = Some s)) as Hsel.
  { intros [s|] col; simpl.
    - destruct (s =? "") eqn:E; simpl.
      + apply String.eqb_eq in E. split; [|reflexivity].
        intros _ s' [= <-] Hs. contradiction.
      + apply String.eqb_neq in E. rewrite value_eqb_eq. split.
        * intros -> s' [= <-] _. reflexivity.
        * intro H. now apply H.
    - split; [discriminate|reflexivity]. }
  unfold listed. rewrite !andb_true_iff, String.eqb_eq, !Hsel. tauto.
Qed.

Lemma get_header_remove_same name hs :
  get_header (remove_header name hs) name = None.
Proof.
  induction hs as [|[k v] hs IH]; simpl; [reflexivity|].
  destruct (k =? name) eqn:E; simpl; [exact IH|]. now rewrite E.
Qed.

Lemma get_header_remove_other name other hs :
  name <> other ->
  get_header (remove_header name hs) other = get_header hs other.
Proof.
  intro Hne. induction hs as [|[k v] hs IH]; simpl; [reflexivity|].
  destruct (k =? name) eqn:E; simpl.
  - apply String.eqb_eq in E. subst k.
    apply String.eqb_neq in Hne. now rewrite Hne.
  - now rewrite IH.
Qed.

(** ** The claims, for every [parse_sql_where] that keeps its contract *)

(** C1 (the code departs from it).  Alice is not root and holds, in the
    global scope, an assignment whose role id is the all-zero global-admin
    sentinel; the role named Administrator exists and Bob exists in the
    global scope.  Her Create for Bob is nevertheless refused with the
    AccessDenied that names her and the scope: the sentinel alternative of
    the guard's statement compares two literals and never holds.  With the
    Administrator role id in the same row the same Create goes through. *)
Theorem sentinel_holder_denied :
  token_user_id (request_of alice) <> root_id /\
  (exists r, In r (luxon_user_role sentinel_only) /\
             ur_user_id r = alice /\ ur_domain r = None /\
             ur_tenant_id r = None /\ ur_role_id r = root_id) /\
  (exists u, In u (luxon_user sentinel_only) /\
             u_id u = bob /\ u_domain u = None /\ u_tenant_id u = None) /\
  add_user_role sentinel_only "a-9" "2018-06-02 09:00:00"
    (request_of alice) bob operator_role_id None None
  = (Raise (AccessDenied (not_authorized_msg alice None None)),
     sentinel_only) /\
  fst (add_user_role alice_administrator "a-9" "2018-06-02 09:00:00"
         (request_of alice) bob operator_role_id None None)
  = Ok [("id", Some "a-9"); ("user_id", Some bob);
        ("role_id", Some operator_role_id);
        ("domain", None); ("tenant_id", None)].
Proof.
  split; [discriminate|]. split; [|split; [|split]].
  - eexists. split; [left; reflexivity|]. repeat split.
  - eexists. split; [right; left; reflexivity|]. repeat split.
  - rewrite add_user_role_eq, check_context_auth_eq. reflexivity.
  - rewrite add_user_role_eq, check_context_auth_eq, check_unique_eq.
    reflexivity.
Qed.

(** C2.  The Uniqueness Guard raises its ValidationError exactly when some
    assignment row has this user and role and, null-aware, this domain and
    tenant, and passes exactly when none has.  Hence a Create that
    succeeded, repeated at once with the same arguments, fails with that
    ValidationError and writes nothing; and after a successful Create with a
    null domain, a Create for the same user and role in a domain x (other
    than a casing of "none") that would have succeeded before still
    succeeds. *)
Theorem uniqueness_guard_null_aware conn id role domain tenant_id :
  (check_unique conn id role domain tenant_id
   = Raise (ValidationError (unique_msg id role domain tenant_id)) <->
   exists r, In r (luxon_user_role conn) /\
             ur_user_id r = id /\ ur_role_id r = role /\
             ur_domain r = domain /\ ur_tenant_id r = tenant_id) /\
  (check_unique conn id role domain tenant_id = Ok tt <->
   ~ exists r, In r (luxon_user_role conn) /\
               ur_user_id r = id /\ ur_role_id r = role /\
               ur_domain r = domain /\ ur_tenant_id r = tenant_id) /\
  (forall uuid4 now req body conn',
     add_user_role conn uuid4 now req id role domain tenant_id
     = (Ok body, conn') ->
     forall uuid4' now',
       add_user_role conn' uuid4' now' req id role domain tenant_id
       = (Raise (ValidationError
                   (unique_msg id role (normalized domain) tenant_id)),
          conn')) /\
  (forall x uuid4 now req body conn',
     lower x <> "none" ->
     add_user_role conn uuid4 now req id role None tenant_id
     = (Ok body, conn') ->
     forall uuid4' now' body' conn'',
       add_user_role conn uuid4' now' req id role (Some x) tenant_id
       = (Ok body', conn'') ->
       exists conn3,
         add_user_role conn' uuid4' now' req id role (Some x) tenant_id
         = (Ok body', conn3)).
Proof.
  split; [apply check_unique_raises|]. split; [apply check_unique_ok|].
  split.
  - intros uuid4 now req body conn' H uuid4' now'.
    apply add_user_role_ok_inv in H. destruct H as [Ha [_ ->]].
    rewrite add_user_role_eq.
    rewrite (check_context_auth_with_assignment _ _ _ _ _ _ Ha). simpl.
    match goal with
    | |- context [check_unique ?c ?i ?r ?d ?t] =>
        replace (check_unique c i r d t)
          with (@Raise unit (ValidationError (unique_msg i r d t)))
    end; [reflexivity|].
    symmetry. apply check_unique_raises.
    eexists. split; [simpl; apply in_or_app; right; left; reflexivity|].
    repeat split.
  - intros x uuid4 now req body conn' Hx H uuid4' now' body' conn'' H'.
    apply add_user_role_ok_inv in H. destruct H as [_ [_ ->]].
    destruct (add_user_role_ok_inv _ _ _ _ _ _ _ _ _ _ H') as [Ha [Hu _]].
    rewrite (add_user_role_ok _ _ _ _ _ _ _ _ Ha Hu) in H'.
    injection H' as <- _.
    eexists. apply add_user_role_ok.
    + now apply check_context_auth_with_assignment.
    + apply check_unique_ok. intros [r [Hin Hr]].
      simpl in Hin. apply in_app_or in Hin. destruct Hin as [Hin|[<-|[]]].
      * apply check_unique_ok in Hu. apply Hu. now exists r.
      * destruct Hr as [_ [_ [Hd _]]].
        rewrite (normalized_some x Hx) in Hd. discriminate Hd.
Qed.

(** C3.  When the requester is the all-zero root identifier, the guard is
    the target-user check alone: it gives the same answer whatever the role
    and assignment tables hold (no Administrator lookup is made).  If the
    target user exists in the requested scope and no assignment row carries
    the requested tuple, Create returns the new record and appends its
    row. *)
Theorem root_create_succeeds conn uuid4 now req id role domain tenant_id :
  token_user_id req = root_id ->
  (exists u, In u (luxon_user conn) /\
             u_id u = id /\ u_domain u = normalized domain /\
             u_tenant_id u = tenant_id) ->
  (~ exists r, In r (luxon_user_role conn) /\
               ur_user_id r = id /\ ur_role_id r = role /\
               ur_domain r = normalized domain /\
               ur_tenant_id r = tenant_id) ->
  (forall roles assignments,
     check_context_auth req
       {| luxon_role := roles; luxon_user := luxon_user conn;
          luxon_user_role := assignments |}
       id (normalized domain) tenant_id
     = target_check conn id (normalized domain) tenant_id) /\
  add_user_role conn uuid4 now req id role domain tenant_id
  = (Ok [("id", Some uuid4); ("user_id", Some id); ("role_id", Some role);
         ("domain", normalized domain); ("tenant_id", tenant_id)],
     with_assignment conn
       {| ur_id := uuid4; ur_role_id := role; ur_tenant_id := tenant_id;
          ur_user_id := id; ur_domain := normalized domain;
          ur_creation_time := now |}).
Proof.
  intros Hroot Huser Hnew.
  assert (forall c d t, check_context_auth req c id d t
                        = target_check c id d t) as Hskip.
  { intros c d t. rewrite check_context_auth_eq, Hroot.
    now rewrite String.eqb_refl. }
  split.
  - intros roles assignments. now rewrite Hskip.
  - apply add_user_role_ok.
    + rewrite Hskip. now apply target_check_ok.
    + now apply check_unique_ok.
Qed.

(** C4, amended.  If no user row matches the target id in the requested
    scope (null-aware), every Create fails and leaves the tables as they
    were; and when the requester is root or holds the Administrator role in
    that scope, the failure is the AccessDenied naming the target user and
    the scope. *)
Theorem absent_target_denied conn uuid4 now req id role domain tenant_id :
  (forall u, In u (luxon_user conn) ->
             ~ (u_id u = id /\ u_domain u = normalized domain /\
                u_tenant_id u = tenant_id)) ->
  (exists e,
     add_user_role conn uuid4 now req id role domain tenant_id
     = (Raise e, conn)) /\
  (token_user_id req = root_id \/
   holds_administrator conn (token_user_id req) (normalized domain)
     tenant_id ->
   add_user_role conn uuid4 now req id role domain tenant_id
   = (Raise (AccessDenied (not_exist_msg id (normalized domain) tenant_id)),
      conn)).
Proof.
  intro Habsent. apply target_check_absent in Habsent.
  rewrite add_user_role_eq, check_context_auth_eq, Habsent. split.
  - destruct (if token_user_id req =? root_id then _ else _) as [[]|e];
      simpl; eauto.
  - intros [Hroot|Hadmin].
    + rewrite Hroot, String.eqb_refl. reflexivity.
    + apply requester_check_ok in Hadmin. rewrite Hadmin.
      now destruct (token_user_id req =? root_id).
Qed.

(** C5.  Remove deletes every assignment row that carries the requested
    tuple (user and role by equality, domain and tenant null-aware) and no
    other row, and leaves the other tables alone.  It fails with NotFound,
    carrying the four requested fields, exactly when no row was affected,
    and then the tables are unchanged; otherwise it returns the empty body.
    When exactly one row carries the tuple, exactly that row goes. *)
Theorem remove_deletes_matching conn req id role domain tenant_id :
  snd (rm_user_role conn req id role domain tenant_id)
  = without_tuple conn id role domain tenant_id /\
  (fst (rm_user_role conn req id role domain tenant_id)
   = Raise (HTTPNotFound [("user_id", Some id); ("role_id", Some role);
                          ("tenant_id", tenant_id); ("domain", domain)]) <->
   length (filter (same_tuple id role domain tenant_id)
             (luxon_user_role conn)) = 0) /\
  (length (filter (same_tuple id role domain tenant_id)
             (luxon_user_role conn)) = 0 ->
   snd (rm_user_role conn req id role domain tenant_id) = conn) /\
  (fst (rm_user_role conn req id role domain tenant_id) = Ok tt <->
   exists r, In r (luxon_user_role conn) /\
             ur_user_id r = id /\ ur_role_id r = role /\
             ur_domain r = domain /\ ur_tenant_id r = tenant_id) /\
  (forall before r after,
     luxon_user_role conn = before ++ r :: after ->
     (ur_user_id r = id /\ ur_role_id r = role /\
      ur_domain r = domain /\ ur_tenant_id r = tenant_id) ->
     (forall x, In x (before ++ after) ->
                same_tuple id role domain tenant_id x = false) ->
     rm_user_role conn req id role domain tenant_id
     = (Ok tt, {| luxon_role := luxon_role conn;
                  luxon_user := luxon_user conn;
                  luxon_user_role := before ++ after |})).
Proof.
  rewrite rm_user_role_eq. simpl fst. simpl snd.
  split; [reflexivity|]. split; [|split; [|split]].
  - destruct (Nat.eqb _ 0) eqn:E.
    + apply Nat.eqb_eq in E. tauto.
    + apply Nat.eqb_neq in E. split; [discriminate|contradiction].
  - intro H. apply Nat.eqb_eq in H.
    pose proof (proj1 (length_filter_zero _ _) H) as Hnone.
    unfold without_tuple. rewrite (filter_all_false _ _ Hnone).
    now destruct conn.
  - destruct (Nat.eqb _ 0) eqn:E.
    + split; [discriminate|]. intros [r [Hin H]].
      pose proof (proj1 (length_filter_zero _ _) E) as Hnone.
      apply same_tuple_true in H. rewrite (Hnone r Hin) in H. discriminate.
    + split; [intros _|reflexivity].
      destruct (filter _ (luxon_user_role conn)) as [|r l] eqn:F;
        [discriminate|].
      assert (In r (filter (same_tuple id role domain tenant_id)
                      (luxon_user_role conn))) as Hin
        by (rewrite F; now left).
      apply filter_In in Hin. destruct Hin as [Hin Hr].
      apply same_tuple_true in Hr. now exists r.
  - intros before r after Hrows Hr Hrest.
    apply same_tuple_true in Hr.
    unfold without_tuple. rewrite Hrows, !filter_app. simpl. rewrite Hr.
    simpl. rewrite !length_app. simpl.
    rewrite Nat.add_succ_r. simpl. f_equal. f_equal.
    rewrite !filter_all_false; [reflexivity| |];
      intros x Hx; apply Hrest, in_or_app; auto.
Qed.

(** C6.  A Create whose domain is any casing of the literal "none" (the
    sixteen spellings, and only they, lower to it) is the Create with no
    domain: the same outcome and the same tables, so the guards, the
    inserted row and the returned record all see a null domain. *)
Theorem none_domain_is_null conn uuid4 now req id role d tenant_id :
  In d none_casings ->
  normalized (Some d) = None /\
  add_user_role conn uuid4 now req id role (Some d) tenant_id
  = add_user_role conn uuid4 now req id role None tenant_id.
Proof.
  intro H. apply normalized_casing in H. split; [exact H|].
  now rewrite !add_user_role_eq, H.
Qed.

(** C7.  List returns, in table order, exactly the assignment rows of the
    user that pass the narrowing: a row must equal the X-Domain value only
    when that header carries a non-empty value, and likewise for
    X-Tenant-Id.  With both headers omitted every row of the user is
    returned, whatever its domain and tenant. *)
Theorem list_narrows_only_when_supplied conn req id :
  user_roles conn req id
  = Ok (filter (listed id (get_header (headers req) "X-Domain")
                  (get_header (headers req) "X-Tenant-Id"))
          (luxon_user_role conn)) /\
  (forall r,
     listed id (get_header (headers req) "X-Domain")
       (get_header (headers req) "X-Tenant-Id") r = true <->
     ur_user_id r = id /\
     (forall d, get_header (headers req) "X-Domain" = Some d -> d <> "" ->
                ur_domain r = Some d) /\
     (forall t, get_header (headers req) "X-Tenant-Id" = Some t -> t <> "" ->
                ur_tenant_id r = Some t)) /\
  (get_header (headers req) "X-Domain" = None ->
   get_header (headers req) "X-Tenant-Id" = None ->
   user_roles conn req id
   = Ok (filter (fun r => ur_user_id r =? id) (luxon_user_role conn))).
Proof.
  split; [apply user_roles_eq|]. split; [intro r; apply listed_true|].
  intros Hd Ht. rewrite user_roles_eq, Hd, Ht. f_equal.
  apply filter_ext. intro r. unfold listed. simpl.
  now rewrite !andb_true_r.
Qed.

(** C8.  A Create that raises (AccessDenied, ValidationError, or anything
    the guards let through) leaves the three tables exactly as they were:
    both guards only read, and the INSERT comes after them. *)
Theorem failed_create_persists_nothing conn uuid4 now req id role domain
  tenant_id e :
  fst (add_user_role conn uuid4 now req id role domain tenant_id) = Raise e ->
  snd (add_user_role conn uuid4 now req id role domain tenant_id) = conn.
Proof.
  destruct (add_user_role _ _ _ _ _ _ _ _) as [res conn'] eqn:E. simpl.
  intros ->. now apply add_user_role_raise_inv in E.
Qed.

(** C9.  Remove compares the domain column with the argument as it was
    passed: with a domain string d, any casing of "none" included, the rows
    that go are exactly those whose domain column equals d, and a row whose
    domain is NULL always stays.  So whenever a row carries the tuple with a
    NULL domain, Remove with d is not Remove with no domain, while Create
    with a casing of "none" is Create with no domain. *)
Theorem remove_domain_verbatim conn req id role d tenant_id :
  (forall r,
     In r (luxon_user_role
             (snd (rm_user_role conn req id role (Some d) tenant_id))) <->
     In r (luxon_user_role conn) /\
     ~ (ur_user_id r = id /\ ur_role_id r = role /\
        ur_domain r = Some d /\ ur_tenant_id r = tenant_id)) /\
  (forall r,
     In r (luxon_user_role conn) -> ur_domain r = None ->
     In r (luxon_user_role
             (snd (rm_user_role conn req id role (Some d) tenant_id)))) /\
  ((exists r, In r (luxon_user_role conn) /\
              ur_user_id r = id /\ ur_role_id r = role /\
              ur_domain r = None /\ ur_tenant_id r = tenant_id) ->
   rm_user_role conn req id role (Some d) tenant_id
   <> rm_user_role conn req id role None tenant_id) /\
  (In d none_casings ->
   forall uuid4 now,
     add_user_role conn uuid4 now req id role (Some d) tenant_id
     = add_user_role conn uuid4 now req id role None tenant_id).
Proof.
  assert (forall dom r,
             In r (luxon_user_role
                     (snd (rm_user_role conn req id role dom tenant_id))) <->
             In r (luxon_user_role conn) /\
             ~ (ur_user_id r = id /\ ur_role_id r = role /\
                ur_domain r = dom /\ ur_tenant_id r = tenant_id))
    as Hleft.
  { intros dom r. rewrite rm_user_role_eq. apply in_without_tuple. }
  split; [apply Hleft|]. split; [|split].
  - intros r Hin Hnull. apply Hleft. split; [exact Hin|].
    intros [_ [_ [Hd _]]]. congruence.
  - intros [r [Hin [Hu [Hr [Hd Ht]]]]] Heq.
    assert (In r (luxon_user_role
                    (snd (rm_user_role conn req id role (Some d)
                            tenant_id)))) as Hstays.
    { apply Hleft. split; [exact Hin|]. intros [_ [_ [Hd' _]]]. congruence. }
    rewrite Heq in Hstays. apply Hleft in Hstays. tauto.
  - intros Hd uuid4 now.
    now rewrite !add_user_role_eq, (normalized_casing d Hd).
Qed.

(** C10.  A List request whose X-Domain header is present with the empty
    string returns what the same request without that header returns, and
    likewise for X-Tenant-Id. *)
Theorem empty_header_is_absent conn req id :
  (get_header (headers req) "X-Domain" = Some "" ->
   user_roles conn req id
   = user_roles conn (without_header "X-Domain" req) id) /\
  (get_header (headers req) "X-Tenant-Id" = Some "" ->
   user_roles conn req id
   = user_roles conn (without_header "X-Tenant-Id" req) id).
Proof.
  split; intro H; rewrite !user_roles_eq; unfold without_header;
    cbn [headers]; rewrite get_header_remove_same,
      get_header_remove_other, H by discriminate; reflexivity.
Qed.

(** ** Beyond the claims: how Create, Remove and List compose *)

Lemma check_unique_ok_false conn id role domain tenant_id :
  check_unique conn id role domain tenant_id = Ok tt ->
  forall r, In r (luxon_user_role conn) ->
            same_tuple id role domain tenant_id r = false.
Proof.
  rewrite check_unique_eq.
  destruct (fetchone _) eqn:E; [discriminate|]. intros _.
  now apply fetchone_filter_none.
Qed.

Lemma same_tuple_new_row uuid4 now id role domain tenant_id :
  same_tuple id role (normalized domain) tenant_id
    (new_row uuid4 now id role domain tenant_id) = true.
Proof. apply same_tuple_true. repeat split. Qed.

Lemma filter_length_split {R : Type} (p : R -> bool) (rows : list R) :
  length rows
  = length (filter p rows) + length (filter (fun r => negb (p r)) rows).
Proof.
  induction rows as [|r rows IH]; simpl; [reflexivity|].
  destruct (p r); simpl; lia.
Qed.

Lemma filter_of_rest {R : Type} (p : R -> bool) (rows : list R) :
  filter p (filter (fun r => negb (p r)) rows) = [].
Proof.
  induction rows as [|r rows IH]; simpl; [reflexivity|].
  destruct (p r) eqn:E; simpl; [exact IH|]. now rewrite E.
Qed.

Lemma same_tuple_tuple_of id role domain tenant_id r :
  same_tuple id role domain tenant_id r = true <->
  tuple_of r = (id, role, domain, tenant_id).
Proof.
  rewrite same_tuple_true. unfold tuple_of. split.
  - now intros [-> [-> [-> ->]]].
  - intros [= -> -> -> ->]. auto.
Qed.

Lemma unique_tuples_filter (p : user_role_row -> bool) rows :
  unique_tuples rows -> unique_tuples (filter p rows).
Proof.
  unfold unique_tuples. induction rows as [|r rows IH]; simpl; intro H;
    [exact H|].
  inversion H as [|x l Hnotin Hrest]; subst.
  destruct (p r); simpl; [|now apply IH].
  constructor; [|now apply IH].
  intro Hin. apply Hnotin. apply in_map_iff in Hin.
  destruct Hin as [r' [Ht Hin]]. apply filter_In in Hin.
  apply in_map_iff. exists r'. tauto.
Qed.

Lemma unique_tuples_snoc rows r :
  unique_tuples rows ->
  (forall x, In x rows -> tuple_of x <> tuple_of r) ->
  unique_tuples (rows ++ [r]).
Proof.
  unfold unique_tuples. induction rows as [|x rows IH]; simpl; intros H Hr.
  - constructor; [intros []|constructor].
  - inversion H as [|y l Hnotin Hrest]; subst. constructor.
    + rewrite map_app, in_app_iff. simpl. intros [Hin|[Heq|[]]].
      * contradiction.
      * apply (Hr x (or_introl eq_refl)). now symmetry.
    + apply IH; [exact Hrest|]. intros y Hy. apply Hr. now right.
Qed.

Lemma unique_tuples_one id role domain tenant_id rows :
  unique_tuples rows ->
  length (filter (same_tuple id role domain tenant_id) rows) <= 1.
Proof.
  unfold unique_tuples. induction rows as [|r rows IH]; simpl; intro H;
    [lia|].
  inversion H as [|x l Hnotin Hrest]; subst.
  destruct (same_tuple id role domain tenant_id r) eqn:E;
    [|now apply IH].
  simpl. apply same_tuple_tuple_of in E.
  assert (filter (same_tuple id role domain tenant_id) rows = []) as ->.
  { destruct (filter _ rows) as [|y l] eqn:F; [reflexivity|].
    assert (In y (filter (same_tuple id role domain tenant_id) rows))
      as Hy by (rewrite F; now left).
    apply filter_In in Hy. destruct Hy as [Hy Hty].
    apply same_tuple_tuple_of in Hty. destruct Hnotin.
    apply in_map_iff. exists y. split; [congruence|exact Hy]. }
  simpl. lia.
Qed.

(** X4.  After a Create that succeeds, the role and user tables are as
    before and the assignment table is the old one with one row appended,
    the row of the returned record.  Lists for other users are unchanged,
    and the unfiltered List for the user is the old one followed by that
    row. *)
Theorem create_then_list conn uuid4 now req id role domain tenant_id
  body conn' :
  add_user_role conn uuid4 now req id role domain tenant_id
  = (Ok body, conn') ->
  luxon_role conn' = luxon_role conn /\
  luxon_user conn' = luxon_user conn /\
  luxon_user_role conn'
  = luxon_user_role conn ++ [new_row uuid4 now id role domain tenant_id] /\
  body = [("id", Some uuid4); ("user_id", Some id); ("role_id", Some role);
          ("domain", normalized domain); ("tenant_id", tenant_id)] /\
  (forall lreq other,
     other <> id ->
     user_roles conn' lreq other = user_roles conn lreq other) /\
  (forall lreq,
     get_header (headers lreq) "X-Domain" = None ->
     get_header (headers lreq) "X-Tenant-Id" = None ->
     user_roles conn' lreq id
     = Ok (filter (fun r => ur_user_id r =? id) (luxon_user_role conn)
           ++ [new_row uuid4 now id role domain tenant_id])).
Proof.
  intro H.
  destruct (add_user_role_ok_inv _ _ _ _ _ _ _ _ _ _ H) as [Ha [Hu ->]].
  rewrite (add_user_role_ok _ _ _ _ _ _ _ _ Ha Hu) in H.
  injection H as <-.
  repeat (split; [reflexivity|]). split.
  - intros lreq other Hne. rewrite !user_roles_eq. simpl.
    rewrite filter_app. simpl. unfold listed at 2. simpl.
    apply String.eqb_neq in Hne. rewrite String.eqb_sym in Hne.
    rewrite Hne. simpl. now rewrite app_nil_r.
  - intros lreq Hd Ht. rewrite user_roles_eq, Hd, Ht. simpl.
    rewrite filter_app. simpl. unfold listed at 2. simpl.
    rewrite String.eqb_refl. simpl. f_equal. f_equal.
    apply filter_ext. intro r. unfold listed. simpl.
    now rewrite !andb_true_r.
Qed.

Lemma remove_undoes_create conn uuid4 now req id role domain tenant_id
  body conn' :
  add_user_role conn uuid4 now req id role domain tenant_id
  = (Ok body, conn') ->
  forall rreq,
    rm_user_role conn' rreq id role (normalized domain) tenant_id
    = (Ok tt, conn).
Proof.
  intros H rreq.
  destruct (add_user_role_ok_inv _ _ _ _ _ _ _ _ _ _ H) as [_ [Hu ->]].
  pose proof (check_unique_ok_false _ _ _ _ _ Hu) as Hnone.
  rewrite rm_user_role_eq. unfold without_tuple. simpl.
  rewrite !filter_app. simpl.
  fold (new_row uuid4 now id role domain tenant_id).
  rewrite same_tuple_new_row. simpl.
  rewrite length_app. simpl. rewrite Nat.add_succ_r. simpl.
  rewrite app_nil_r, (filter_all_false _ _ Hnone).
  now destruct conn.
Qed.

(** X5.  A Create that succeeds is undone by the Remove of the same user,
    role and tenant with the domain as Create stored it: the Remove returns
    the empty body and the three tables are again what they were before
    the Create, whoever asks for the Remove. *)
Theorem create_then_remove conn uuid4 now req id role domain tenant_id
  body conn' :
  add_user_role conn uuid4 now req id role domain tenant_id
  = (Ok body, conn') ->
  snd (add_user_role conn uuid4 now req id role domain tenant_id) <> conn /\
  forall rreq,
    rm_user_role conn' rreq id role (normalized domain) tenant_id
    = (Ok tt, conn).
Proof.
  intro H. split; [|now apply (remove_undoes_create _ _ _ _ _ _ _ _ _ _ H)].
  rewrite H. simpl.
  destruct (add_user_role_ok_inv _ _ _ _ _ _ _ _ _ _ H) as [_ [_ ->]].
  intro Heq. apply (f_equal (fun c => length (luxon_user_role c))) in Heq.
  simpl in Heq. rewrite length_app in Heq. simpl in Heq. lia.
Qed.

(** X6.  After a Remove, whatever its outcome, no row carries the removed
    tuple: the Uniqueness Guard passes for it, so a Create of that tuple
    (the domain not being a casing of "none") succeeds as soon as the
    Authorization Guard lets it through on the tables Remove left. *)
Theorem remove_then_create conn rreq id role domain tenant_id :
  check_unique (snd (rm_user_role conn rreq id role domain tenant_id))
    id role domain tenant_id = Ok tt /\
  (forall uuid4 now req,
     normalized domain = domain ->
     check_context_auth req
       (snd (rm_user_role conn rreq id role domain tenant_id))
       id domain tenant_id = Ok tt ->
     fst (add_user_role
            (snd (rm_user_role conn rreq id role domain tenant_id))
            uuid4 now req id role domain tenant_id)
     = Ok [("id", Some uuid4); ("user_id", Some id); ("role_id", Some role);
           ("domain", domain); ("tenant_id", tenant_id)]).
Proof.
  assert (check_unique (snd (rm_user_role conn rreq id role domain
                               tenant_id)) id role domain tenant_id
          = Ok tt) as Hu.
  { apply check_unique_ok. rewrite rm_user_role_eq. simpl snd.
    intros [r [Hin Hr]]. apply in_without_tuple in Hin. tauto. }
  split; [exact Hu|].
  intros uuid4 now req Hn Ha.
  rewrite (add_user_role_ok _ uuid4 now req id role domain tenant_id);
    rewrite ?Hn; auto.
Qed.

(** X7.  Remove is not repeatable: the same Remove again, right after the
    first and whatever the first returned, raises NotFound and leaves the
    tables as the first left them. *)
Theorem remove_twice conn rreq rreq' id role domain tenant_id :
  rm_user_role (snd (rm_user_role conn rreq id role domain tenant_id))
    rreq' id role domain tenant_id
  = (Raise (HTTPNotFound [("user_id", Some id); ("role_id", Some role);
                          ("tenant_id", tenant_id); ("domain", domain)]),
     snd (rm_user_role conn rreq id role domain tenant_id)).
Proof.
  rewrite !rm_user_role_eq. simpl snd. unfold without_tuple at 1 2.
  simpl. rewrite filter_of_rest. simpl. f_equal.
  unfold without_tuple. simpl. f_equal.
  apply filter_all_false. intros r Hin. apply filter_In in Hin.
  now apply negb_true_iff.
Qed.

(** X8.  The uniqueness invariant is kept: if no two assignment rows carry
    the same (user, role, domain, tenant) tuple, nulls compared as values,
    the same holds after any Create and after any Remove, whether they
    succeed or raise. *)
Theorem unique_tuples_kept conn :
  unique_tuples (luxon_user_role conn) ->
  (forall uuid4 now req id role domain tenant_id,
     unique_tuples
       (luxon_user_role
          (snd (add_user_role conn uuid4 now req id role domain
                  tenant_id)))) /\
  (forall rreq id role domain tenant_id,
     unique_tuples
       (luxon_user_role
          (snd (rm_user_role conn rreq id role domain tenant_id)))).
Proof.
  intro Hinv. split.
  - intros uuid4 now req id role domain tenant_id.
    destruct (add_user_role conn uuid4 now req id role domain tenant_id)
      as [[body|e] conn'] eqn:E; simpl.
    + destruct (add_user_role_ok_inv _ _ _ _ _ _ _ _ _ _ E) as [_ [Hu ->]].
      simpl. apply unique_tuples_snoc; [exact Hinv|].
      intros x Hx Heq.
      pose proof (check_unique_ok_false _ _ _ _ _ Hu x Hx) as Hf.
      assert (same_tuple id role (normalized domain) tenant_id x = true)
        as Ht by (apply same_tuple_tuple_of; exact Heq).
      rewrite Hf in Ht. discriminate Ht.
    + now rewrite (add_user_role_raise_inv _ _ _ _ _ _ _ _ _ _ E).
  - intros rreq id role domain tenant_id. rewrite rm_user_role_eq.
    simpl. now apply unique_tuples_filter.
Qed.

(** X9.  Under the uniqueness invariant a Remove takes away at most one
    row. *)
Theorem remove_at_most_one conn rreq id role domain tenant_id :
  unique_tuples (luxon_user_role conn) ->
  length (luxon_user_role conn)
  <= S (length (luxon_user_role
                  (snd (rm_user_role conn rreq id role domain tenant_id)))).
Proof.
  intro Hinv. rewrite rm_user_role_eq. simpl.
  rewrite (filter_length_split (same_tuple id role domain tenant_id)
             (luxon_user_role conn)).
  pose proof (unique_tuples_one id role domain tenant_id _ Hinv). lia.
Qed.

(** X10.  When no role is named "Administrator", every Create by a
    requester other than root raises TypeError (the lookup's missing row is
    subscripted), whatever the arguments, and writes nothing. *)
Theorem no_administrator_role conn uuid4 now req id role domain tenant_id :
  token_user_id req <> root_id ->
  (forall r, In r (luxon_role conn) -> r_name r <> "Administrator") ->
  add_user_role conn uuid4 now req id role domain tenant_id
  = (Raise TypeError, conn).
Proof.
  intros Hreq Hnone. rewrite add_user_role_eq, check_context_auth_eq.
  apply String.eqb_neq in Hreq. rewrite Hreq. unfold requester_check.
  assert (fetchone (filter (fun x => r_name x =? "Administrator")
                      (luxon_role conn)) = None) as ->.
  { apply fetchone_filter_none. intros r Hin.
    apply String.eqb_neq. now apply Hnone. }
  reflexivity.
Qed.

(** X11.  For a requester other than root, with [a] the Administrator role
    row the lookup returns: without an assignment row of the requester that
    has role [a] and exactly the requested domain and tenant (a NULL
    matching only NULL, so a grant in another scope does not count), Create
    raises the AccessDenied naming the requester and writes nothing; with
    such a row the guard reduces to the target-user check. *)
Theorem requester_decision conn uuid4 now req id role domain tenant_id a :
  token_user_id req <> root_id ->
  fetchone (filter (fun x => r_name x =? "Administrator")
              (luxon_role conn)) = Some a ->
  ((~ exists r, In r (luxon_user_role conn) /\
                ur_user_id r = token_user_id req /\
                ur_role_id r = r_id a /\
                ur_domain r = normalized domain /\
                ur_tenant_id r = tenant_id) ->
   add_user_role conn uuid4 now req id role domain tenant_id
   = (Raise (AccessDenied
               (not_authorized_msg (token_user_id req) (normalized domain)
                  tenant_id)), conn)) /\
  ((exists r, In r (luxon_user_role conn) /\
              ur_user_id r = token_user_id req /\
              ur_role_id r = r_id a /\
              ur_domain r = normalized domain /\
              ur_tenant_id r = tenant_id) ->
   check_context_auth req conn id (normalized domain) tenant_id
   = target_check conn id (normalized domain) tenant_id).
Proof.
  intros Hreq Ha. apply String.eqb_neq in Hreq. split.
  - intro Hnone. rewrite add_user_role_eq, check_context_auth_eq, Hreq.
    unfold requester_check. rewrite Ha.
    assert (fetchone (filter (same_tuple (token_user_id req) (r_id a)
                                (normalized domain) tenant_id)
                        (luxon_user_role conn)) = None) as ->.
    { apply fetchone_filter_none. intros r Hin.
      apply not_true_iff_false. intro Ht. apply same_tuple_true in Ht.
      apply Hnone. now exists r. }
    reflexivity.
  - intros [r [Hin Hr]]. rewrite check_context_auth_eq, Hreq.
    assert (requester_check conn (token_user_id req) (normalized domain)
              tenant_id = Ok tt) as ->.
    { apply requester_check_ok. exists a, r. tauto. }
    reflexivity.
Qed.

(** X12.  Create raises ValidationError only after the Authorization Guard
    has passed: the requester is root or holds the Administrator role in
    the scope, the target user exists in the scope, and a row with the
    tuple exists, which the message reports.  A requester the guard refuses
    never learns whether the assignment exists. *)
Theorem validation_error_after_auth conn uuid4 now req id role domain
  tenant_id msg conn' :
  add_user_role conn uuid4 now req id role domain tenant_id
  = (Raise (ValidationError msg), conn') ->
  (token_user_id req = root_id \/
   holds_administrator conn (token_user_id req) (normalized domain)
     tenant_id) /\
  (exists u, In u (luxon_user conn) /\
             u_id u = id /\ u_domain u = normalized domain /\
             u_tenant_id u = tenant_id) /\
  (exists r, In r (luxon_user_role conn) /\
             ur_user_id r = id /\ ur_role_id r = role /\
             ur_domain r = normalized domain /\
             ur_tenant_id r = tenant_id) /\
  msg = unique_msg id role (normalized domain) tenant_id.
Proof.
  rewrite add_user_role_eq, check_context_auth_eq.
  destruct (token_user_id req =? root_id) eqn:Hroot.
  - simpl.
    destruct (target_check conn id (normalized domain) tenant_id)
      as [[]|e] eqn:Ht; simpl.
    + rewrite check_unique_eq.
      destruct (fetchone _) as [r|] eqn:Er; [|discriminate].
      intros [= <- _]. apply String.eqb_eq in Hroot.
      split; [now left|]. split; [now apply target_check_ok|].
      split; [|reflexivity].
      destruct (proj1 (fetchone_filter_some _ _) (ex_intro _ r Er))
        as [r' [Hin Hr']].
      apply same_tuple_true in Hr'. now exists r'.
    + unfold target_check in Ht.
      destruct (fetchone _) in Ht; [discriminate|].
      injection Ht as <-. discriminate.
  - destruct (requester_check conn (token_user_id req) (normalized domain)
                tenant_id) as [[]|e] eqn:Hr; simpl.
    + destruct (target_check conn id (normalized domain) tenant_id)
        as [[]|e] eqn:Ht; simpl.
      * rewrite check_unique_eq.
        destruct (fetchone _) as [r|] eqn:Er; [|discriminate].
        intros [= <- _].
        split; [right; now apply requester_check_ok|].
        split; [now apply target_check_ok|].
        split; [|reflexivity].
        destruct (proj1 (fetchone_filter_some _ _) (ex_intro _ r Er))
          as [r' [Hin Hr']].
        apply same_tuple_true in Hr'. now exists r'.
      * unfold target_check in Ht.
        destruct (fetchone _) in Ht; [discriminate|].
        injection Ht as <-. discriminate.
    + unfold requester_check in Hr.
      destruct (fetchone (filter _ (luxon_role conn))) in Hr;
        [|injection Hr as <-; discriminate].
      destruct (fetchone _) in Hr; [discriminate|].
      injection Hr as <-. discriminate.
Qed.

(** X13.  A Create made with a casing of "none" as its domain is not undone
    by the Remove spelled the same way: the new row, stored with a NULL
    domain, is still there afterwards.  The Remove with no domain undoes
    it. *)
Theorem none_create_not_undone conn uuid4 now req id role d tenant_id
  body conn' rreq :
  In d none_casings ->
  add_user_role conn uuid4 now req id role (Some d) tenant_id
  = (Ok body, conn') ->
  ur_domain (new_row uuid4 now id role (Some d) tenant_id) = None /\
  In (new_row uuid4 now id role (Some d) tenant_id)
    (luxon_user_role
       (snd (rm_user_role conn' rreq id role (Some d) tenant_id))) /\
  rm_user_role conn' rreq id role None tenant_id = (Ok tt, conn).
Proof.
  intros Hd H. pose proof (normalized_casing d Hd) as Hn.
  split; [exact Hn|]. split.
  - destruct (add_user_role_ok_inv _ _ _ _ _ _ _ _ _ _ H) as [_ [_ ->]].
    rewrite rm_user_role_eq. simpl snd. apply in_without_tuple. split.
    + simpl. apply in_or_app. right. now left.
    + intros [_ [_ [Hdom _]]].
      change (normalized (Some d) = Some d) in Hdom. rewrite Hn in Hdom.
      discriminate Hdom.
  - rewrite <- Hn. now apply (remove_undoes_create _ _ _ _ _ _ _ _ _ _ H).
Qed.

(** ** Beyond the claims: the domain listing *)

Lemma prefix_app (sub s : string) :
  prefix sub s = true <-> exists post, s = (sub ++ post)%string.
Proof.
  revert s. induction sub as [|a sub IH]; intro s.
  - split; [intros _; now exists s|now destruct s].
  - destruct s as [|b s]; simpl.
    + split; [discriminate|]. intros [post H]. discriminate H.
    + destruct (Ascii.ascii_dec a b) as [->|Hne].
      * rewrite IH. split; intros [post H]; exists post.
        -- now rewrite H.
        -- now injection H.
      * split; [discriminate|]. intros [post H]. injection H as H _.
        congruence.
Qed.

Lemma str_in_spec (sub s : string) :
  str_in sub s = true <->
  exists pre post, s = (pre ++ sub ++ post)%string.
Proof.
  induction s as [|c s IH]; cbn [str_in].
  - rewrite prefix_app. split.
    + intros [post H]. now exists EmptyString, post.
    + intros [pre [post H]]. destruct pre; [|discriminate H].
      now exists post.
  - rewrite orb_true_iff, prefix_app, IH. split.
    + intros [[post H]|[pre [post H]]].
      * now exists EmptyString, post.
      * exists (String c pre), post. simpl. now rewrite H.
    + intros [[|c' pre] [post H]].
      * left. now exists post.
      * right. exists pre, post. simpl in H. now injection H.
Qed.

Lemma str_in_empty (s : string) : str_in EmptyString s = true.
Proof. apply str_in_spec. now exists EmptyString, s. Qed.

Lemma filter_loop_strings search domains_list filtered :
  (forall d, In d domains_list -> d <> None) ->
  filter_loop search domains_list filtered
  = Ok (filtered ++ filter (has_term search) domains_list).
Proof.
  revert filtered. induction domains_list as [|[d|] l IH];
    intros filtered Hstr; simpl.
  - now rewrite app_nil_r.
  - rewrite IH by (intros x Hx; apply Hstr; now right).
    destruct (str_in search d); [|reflexivity].
    now rewrite <- app_assoc.
  - now destruct (Hstr None (or_introl eq_refl)).
Qed.

Lemma filter_loop_none search domains_list filtered :
  In None domains_list ->
  filter_loop search domains_list filtered = Raise TypeError.
Proof.
  revert filtered. induction domains_list as [|[d|] l IH];
    intros filtered Hin; simpl.
  - destruct Hin.
  - destruct Hin as [Hin|Hin]; [discriminate Hin|]. now apply IH.
  - reflexivity.
Qed.

(** X1.  With a [term] parameter and a user whose domains are all strings,
    the listing is the user's domains that contain the term as a substring
    (case-sensitive), each as often and in the order [user_domains] gave
    them. *)
Theorem rbac_domains_filters user_domains query_params req search :
  query_get query_params "term" = Some search ->
  (forall d, In d (user_domains (token_user_id req)) -> d <> None) ->
  rbac_domains user_domains query_params req
  = Ok (filter (has_term search) (user_domains (token_user_id req))) /\
  (forall d,
     In (Some d) (filter (has_term search)
                    (user_domains (token_user_id req))) <->
     In (Some d) (user_domains (token_user_id req)) /\
     exists pre post, d = (pre ++ search ++ post)%string).
Proof.
  intros Hterm Hstr. unfold rbac_domains. rewrite Hterm. split.
  - now rewrite filter_loop_strings.
  - intro d. rewrite filter_In. simpl. now rewrite str_in_spec.
Qed.

(** X2.  A [term] parameter that is present but empty filters nothing: for
    a user whose domains are all strings the listing is the whole list, the
    one returned when the parameter is absent. *)
Theorem rbac_domains_empty_term user_domains query_params req :
  query_get query_params "term" = Some "" ->
  (forall d, In d (user_domains (token_user_id req)) -> d <> None) ->
  rbac_domains user_domains query_params req
  = Ok (user_domains (token_user_id req)) /\
  (forall query_params',
     query_get query_params' "term" = None ->
     rbac_domains user_domains query_params req
     = rbac_domains user_domains query_params' req).
Proof.
  intros Hterm Hstr.
  assert (rbac_domains user_domains query_params req
          = Ok (user_domains (token_user_id req))) as Hall.
  { unfold rbac_domains. rewrite Hterm.
    rewrite filter_loop_strings by exact Hstr. simpl. f_equal.
    induction (user_domains (token_user_id req)) as [|[d|] l IH]; simpl.
    - reflexivity.
    - rewrite str_in_empty. f_equal. apply IH.
      intros x Hx. apply Hstr. now right.
    - now destruct (Hstr None (or_introl eq_refl)). }
  split; [exact Hall|].
  intros query_params' Hnone. rewrite Hall. unfold rbac_domains.
  now rewrite Hnone.
Qed.

(** X3.  When one of the user's domains is [None], the listing goes through
    without a [term] parameter (and shows the [None]), but with any [term]
    parameter, the empty one included, it raises TypeError: the substring
    test is applied to [None]. *)
Theorem rbac_domains_none_domain user_domains query_params req :
  In None (user_domains (token_user_id req)) ->
  (query_get query_params "term" = None ->
   rbac_domains user_domains query_params req
   = Ok (user_domains (token_user_id req))) /\
  (forall search,
     query_get query_params "term" = Some search ->
     rbac_domains user_domains query_params req = Raise TypeError).
Proof.
  intro Hin. unfold rbac_domains. split.
  - now intros ->.
  - intros search ->. now apply filter_loop_none.
Qed.

End Rbac.

(** ** The modelled [parse_sql_where] keeps the contract *)

Lemma and3_true (x y : tri) :
  and3 x y = Some true <-> x = Some true /\ y = Some true.
Proof.
  destruct x as [[]|], y as [[]|]; simpl; split; try discriminate; auto;
    intros [H1 H2]; discriminate.
Qed.

Lemma parse_sql_where_null_aware : null_aware_conjunction Api.parse_sql_where.
Proof.
  intros R column r where_ more.
  induction where_ as [|[k v] w IH]; intro Hcols.
  - exists (Some true). split; [reflexivity|].
    split; [intros _ k v []|reflexivity].
  - destruct IH as [t [Ht Hiff]].
    { intros k' v' Hin. apply (Hcols k' v'). now right. }
    destruct (column r k) as [c|] eqn:Ec;
      [|now destruct (Hcols k v (or_introl eq_refl))].
    simpl. destruct (Api.parse_sql_where w) as [query vals].
    simpl in Ht.
    destruct v as [s|]; simpl; rewrite Ec, Ht.
    + exists (and3 (eq3 c (Some s)) t). split; [reflexivity|].
      rewrite and3_true, Hiff. split.
      * intros [Hc Hw] k' v' [[= <- <-]|Hin]; [|now apply Hw].
        rewrite Ec. destruct c as [c|]; [|discriminate Hc].
        simpl in Hc. injection Hc as Hc. apply String.eqb_eq in Hc.
        now subst.
      * intro H. split; [|intros k' v' Hin; apply H; now right].
        specialize (H k (Some s) (or_introl eq_refl)).
        rewrite Ec in H. injection H as ->. simpl.
        now rewrite String.eqb_refl.
    + exists (and3 (Some match c with None => true | Some _ => false end) t).
      split; [reflexivity|].
      rewrite and3_true, Hiff. split.
      * intros [Hc Hw] k' v' [[= <- <-]|Hin]; [|now apply Hw].
        rewrite Ec. now destruct c.
      * intro H. split; [|intros k' v' Hin; apply H; now right].
        specialize (H k None (or_introl eq_refl)).
        rewrite Ec in H. now injection H as ->.
Qed.

(** ** The claims on the sample tables *)

(** C1 on the modelled helper: the sentinel holder's Create is refused. *)
Lemma sentinel_holder_denied_witness :
  add_user_role Api.parse_sql_where sentinel_only "a-9" "2018-06-02 09:00:00"
    (request_of alice) bob operator_role_id None None
  = (Raise (AccessDenied (not_authorized_msg alice None None)),
     sentinel_only).
Proof.
  exact (proj1 (proj2 (proj2 (proj2
    (sentinel_holder_denied Api.parse_sql_where
       parse_sql_where_null_aware))))).
Defined.

(** C2 on the sample tables: root grants Bob the Operator role globally;
    the same Create again is a duplicate, the one in domain "default" is
    not. *)
Lemma uniqueness_guard_null_aware_witness :
  add_user_role Api.parse_sql_where
    (with_assignment no_assignments
       {| ur_id := "a-5"; ur_role_id := operator_role_id;
          ur_tenant_id := None; ur_user_id := bob; ur_domain := None;
          ur_creation_time := "2018-06-02 09:00:00" |})
    "a-6" "2018-06-02 09:00:01" (request_of root_id)
    bob operator_role_id None None
  = (Raise (ValidationError (unique_msg bob operator_role_id None None)),
     with_assignment no_assignments
       {| ur_id := "a-5"; ur_role_id := operator_role_id;
          ur_tenant_id := None; ur_user_id := bob; ur_domain := None;
          ur_creation_time := "2018-06-02 09:00:00" |}) /\
  exists conn3,
    add_user_role Api.parse_sql_where
      (with_assignment no_assignments
         {| ur_id := "a-5"; ur_role_id := operator_role_id;
            ur_tenant_id := None; ur_user_id := bob; ur_domain := None;
            ur_creation_time := "2018-06-02 09:00:00" |})
      "a-6" "2018-06-02 09:00:01" (request_of root_id)
      bob operator_role_id (Some "default") None
    = (Ok [("id", Some "a-6"); ("user_id", Some bob);
           ("role_id", Some operator_role_id);
           ("domain", Some "default"); ("tenant_id", None)], conn3).
Proof.
  destruct (uniqueness_guard_null_aware Api.parse_sql_where
              parse_sql_where_null_aware no_assignments bob
              operator_role_id None None) as [_ [_ [Hsame Hother]]].
  split.
  - apply (Hsame "a-5" "2018-06-02 09:00:00" (request_of root_id)
             [("id", Some "a-5"); ("user_id", Some bob);
              ("role_id", Some operator_role_id);
              ("domain", None); ("tenant_id", None)]).
    reflexivity.
  - eapply (Hother "default" "a-5" "2018-06-02 09:00:00");
      [discriminate | reflexivity | reflexivity].
Defined.

(** C3 on the sample tables: root grants Bob the Operator role in domain
    "default". *)
Lemma root_create_succeeds_witness :
  add_user_role Api.parse_sql_where no_assignments "a-5"
    "2018-06-02 09:00:00" (request_of root_id) bob operator_role_id
    (Some "default") None
  = (Ok [("id", Some "a-5"); ("user_id", Some bob);
         ("role_id", Some operator_role_id);
         ("domain", Some "default"); ("tenant_id", None)],
     with_assignment no_assignments
       {| ur_id := "a-5"; ur_role_id := operator_role_id;
          ur_tenant_id := None; ur_user_id := bob;
          ur_domain := Some "default";
          ur_creation_time := "2018-06-02 09:00:00" |}).
Proof.
  apply (root_create_succeeds Api.parse_sql_where parse_sql_where_null_aware
           no_assignments "a-5" "2018-06-02 09:00:00"
           (request_of root_id) bob operator_role_id (Some "default") None).
  - reflexivity.
  - exists {| u_id := bob; u_domain := Some "default"; u_tenant_id := None |}.
    simpl. tauto.
  - intros [r [[] _]].
Defined.

(** C4, as stated, fails.  Alice is not root and holds no assignment; the
    user "ghost" has no row in the global scope.  Her Create for "ghost" is
    refused, but with the AccessDenied that names her, not the one that
    names the target user. *)
Lemma absent_target_names_requester :
  (forall u, In u (luxon_user no_assignments) ->
             ~ (u_id u = "ghost" /\ u_domain u = None /\
                u_tenant_id u = None)) /\
  add_user_role Api.parse_sql_where no_assignments "a-5"
    "2018-06-02 09:00:00" (request_of alice) "ghost" operator_role_id
    None None
  = (Raise (AccessDenied (not_authorized_msg alice None None)),
     no_assignments) /\
  add_user_role Api.parse_sql_where no_assignments "a-5"
    "2018-06-02 09:00:00" (request_of alice) "ghost" operator_role_id
    None None
  <> (Raise (AccessDenied (not_exist_msg "ghost" None None)),
      no_assignments).
Proof.
  split; [|split].
  - intros u [<-|[<-|[<-|[]]]] [H _]; discriminate H.
  - reflexivity.
  - discriminate.
Qed.

(** C4, amended, on the sample tables: root's Create for "ghost". *)
Lemma absent_target_denied_witness :
  add_user_role Api.parse_sql_where no_assignments "a-5"
    "2018-06-02 09:00:00" (request_of root_id) "ghost" operator_role_id
    (Some "NONE") None
  = (Raise (AccessDenied (not_exist_msg "ghost" None None)),
     no_assignments).
Proof.
  apply (absent_target_denied Api.parse_sql_where parse_sql_where_null_aware
           no_assignments "a-5" "2018-06-02 09:00:00"
           (request_of root_id) "ghost" operator_role_id (Some "NONE") None).
  - intros u [<-|[<-|[<-|[]]]] [H _]; discriminate H.
  - left. reflexivity.
Defined.

(** C5 on the sample tables: the one row stored under domain "none" goes;
    on the empty table nothing changes. *)
Lemma remove_deletes_matching_witness :
  rm_user_role Api.parse_sql_where bob_operator (request_of root_id) bob
    operator_role_id (Some "none") None
  = (Ok tt,
     {| luxon_role := sample_roles;
        luxon_user := sample_users;
        luxon_user_role :=
          [{| ur_id := "a-2"; ur_role_id := operator_role_id;
              ur_tenant_id := None; ur_user_id := bob; ur_domain := None;
              ur_creation_time := "2018-06-01 10:00:00" |}]
          ++ [{| ur_id := "a-4"; ur_role_id := operator_role_id;
                 ur_tenant_id := Some "t-9"; ur_user_id := bob;
                 ur_domain := Some "default";
                 ur_creation_time := "2018-06-01 10:06:00" |}] |}) /\
  snd (rm_user_role Api.parse_sql_where no_assignments (request_of root_id)
         bob operator_role_id None None) = no_assignments.
Proof.
  split.
  - eapply (proj2 (proj2 (proj2 (proj2
             (remove_deletes_matching Api.parse_sql_where
                parse_sql_where_null_aware bob_operator (request_of root_id)
                bob operator_role_id (Some "none") None))))).
    + reflexivity.
    + simpl. tauto.
    + intros x [<-|[<-|[]]]; reflexivity.
  - apply (proj1 (proj2 (proj2
             (remove_deletes_matching Api.parse_sql_where
                parse_sql_where_null_aware no_assignments
                (request_of root_id) bob operator_role_id None None)))).
    reflexivity.
Defined.

(** C6 for the casing "NoNe". *)
Lemma none_domain_is_null_witness :
  normalized (Some "NoNe") = None /\
  add_user_role Api.parse_sql_where no_assignments "a-5"
    "2018-06-02 09:00:00" (request_of root_id) bob operator_role_id
    (Some "NoNe") None
  = add_user_role Api.parse_sql_where no_assignments "a-5"
      "2018-06-02 09:00:00" (request_of root_id) bob operator_role_id
      None None.
Proof.
  apply (none_domain_is_null Api.parse_sql_where no_assignments "a-5"
           "2018-06-02 09:00:00" (request_of root_id) bob operator_role_id
           "NoNe" None).
  vm_compute. tauto.
Defined.

(** C7 with no header: all of Bob's rows. *)
Lemma list_narrows_only_when_supplied_witness :
  user_roles bob_operator (request_of alice) bob
  = Ok (filter (fun r => ur_user_id r =? bob)
          (luxon_user_role bob_operator)).
Proof.
  apply (proj2 (proj2 (list_narrows_only_when_supplied bob_operator
                         (request_of alice) bob))); reflexivity.
Defined.

(** C8 for a duplicate and for a refused requester. *)
Lemma failed_create_persists_nothing_witness :
  snd (add_user_role Api.parse_sql_where bob_operator "a-6"
         "2018-06-02 09:00:01" (request_of root_id) bob operator_role_id
         (Some "None") None)
  = bob_operator /\
  snd (add_user_role Api.parse_sql_where sentinel_only "a-6"
         "2018-06-02 09:00:01" (request_of alice) bob operator_role_id
         None None)
  = sentinel_only.
Proof.
  split.
  - apply (failed_create_persists_nothing Api.parse_sql_where bob_operator
             "a-6" "2018-06-02 09:00:01" (request_of root_id)
             bob operator_role_id (Some "None") None
             (ValidationError (unique_msg bob operator_role_id None None))).
    reflexivity.
  - apply (failed_create_persists_nothing Api.parse_sql_where sentinel_only
             "a-6" "2018-06-02 09:00:01" (request_of alice)
             bob operator_role_id None None
             (AccessDenied (not_authorized_msg alice None None))).
    reflexivity.
Defined.

(** C9 on the sample tables: Bob's global row survives Remove with "NONE",
    and Remove with "none" is not Remove with no domain. *)
Lemma remove_domain_verbatim_witness :
  In {| ur_id := "a-2"; ur_role_id := operator_role_id;
        ur_tenant_id := None; ur_user_id := bob; ur_domain := None;
        ur_creation_time := "2018-06-01 10:00:00" |}
    (luxon_user_role
       (snd (rm_user_role Api.parse_sql_where bob_operator
               (request_of root_id) bob operator_role_id
               (Some "NONE") None))) /\
  rm_user_role Api.parse_sql_where bob_operator (request_of root_id) bob
    operator_role_id (Some "none") None
  <> rm_user_role Api.parse_sql_where bob_operator (request_of root_id) bob
       operator_role_id None None.
Proof.
  split.
  - apply (proj1 (proj2 (remove_domain_verbatim Api.parse_sql_where
                           parse_sql_where_null_aware bob_operator
                           (request_of root_id) bob operator_role_id
                           "NONE" None))).
    + left. reflexivity.
    + reflexivity.
  - apply (proj1 (proj2 (proj2
             (remove_domain_verbatim Api.parse_sql_where
                parse_sql_where_null_aware bob_operator
                (request_of root_id) bob operator_role_id "none" None)))).
    eexists. split; [left; reflexivity|]. repeat split.
Defined.

(** C10 for each of the two headers. *)
Lemma empty_header_is_absent_witness :
  user_roles bob_operator
    {| token_user_id := alice;
       headers := [("X-Domain", ""); ("X-Tenant-Id", "t-9")] |} bob
  = user_roles bob_operator
      {| token_user_id := alice; headers := [("X-Tenant-Id", "t-9")] |} bob /\
  user_roles bob_operator
    {| token_user_id := alice;
       headers := [("X-Domain", "default"); ("X-Tenant-Id", "")] |} bob
  = user_roles bob_operator
      {| token_user_id := alice; headers := [("X-Domain", "default")] |} bob.
Proof.
  split.
  - apply (proj1 (empty_header_is_absent bob_operator
                    {| token_user_id := alice;
                       headers := [("X-Domain", "");
                                   ("X-Tenant-Id", "t-9")] |} bob)).
    reflexivity.
  - apply (proj2 (empty_header_is_absent bob_operator
                    {| token_user_id := alice;
                       headers := [("X-Domain", "default");
                                   ("X-Tenant-Id", "")] |} bob)).
    reflexivity.
Defined.

(** ** The further properties on the sample tables *)

(** X1 for Bob and the term "lab". *)
Lemma rbac_domains_filters_witness :
  rbac_domains sample_domains [("term", "lab")] (request_of bob)
  = Ok [Some "lab"; Some "fab-lab"].
Proof.
  apply (proj1 (rbac_domains_filters sample_domains [("term", "lab")]
                  (request_of bob) "lab" eq_refl
                  ltac:(intros d [<-|[<-|[<-|[]]]]; discriminate))).
Defined.

(** X2 for Bob. *)
Lemma rbac_domains_empty_term_witness :
  rbac_domains sample_domains [("term", "")] (request_of bob)
  = Ok [Some "default"; Some "lab"; Some "fab-lab"].
Proof.
  apply (proj1 (rbac_domains_empty_term sample_domains [("term", "")]
                  (request_of bob) eq_refl
                  ltac:(intros d [<-|[<-|[<-|[]]]]; discriminate))).
Defined.

(** X3 for Alice, one of whose domains is the global one. *)
Lemma rbac_domains_none_domain_witness :
  rbac_domains sample_domains [] (request_of alice)
  = Ok [None; Some "default"] /\
  rbac_domains sample_domains [("term", "")] (request_of alice)
  = Raise TypeError.
Proof.
  split.
  - apply (proj1 (rbac_domains_none_domain sample_domains []
                    (request_of alice) (or_introl eq_refl)) eq_refl).
  - apply (proj2 (rbac_domains_none_domain sample_domains [("term", "")]
                    (request_of alice) (or_introl eq_refl)) "" eq_refl).
Defined.

(** X4: root grants Bob the Operator role in domain "default"; Alice's list
    is as before and Bob's gains the row. *)
Lemma create_then_list_witness :
  user_roles
    (with_assignment bob_operator
       (new_row "a-5" "2018-06-02 09:00:00" bob operator_role_id
          (Some "default") None))
    (request_of alice) alice
  = user_roles bob_operator (request_of alice) alice /\
  user_roles
    (with_assignment bob_operator
       (new_row "a-5" "2018-06-02 09:00:00" bob operator_role_id
          (Some "default") None))
    (request_of alice) bob
  = Ok (filter (fun r => ur_user_id r =? bob) (luxon_user_role bob_operator)
        ++ [new_row "a-5" "2018-06-02 09:00:00" bob operator_role_id
              (Some "default") None]).
Proof.
  destruct (create_then_list Api.parse_sql_where
              bob_operator "a-5" "2018-06-02 09:00:00" (request_of root_id)
              bob operator_role_id (Some "default") None _ _ eq_refl)
    as [_ [_ [_ [_ [Hother Hsame]]]]].
  split.
  - apply Hother. discriminate.
  - apply Hsame; reflexivity.
Defined.

(** X5: the same Create, then the Remove. *)
Lemma create_then_remove_witness :
  rm_user_role Api.parse_sql_where
    (with_assignment bob_operator
       (new_row "a-5" "2018-06-02 09:00:00" bob operator_role_id
          (Some "default") None))
    (request_of alice) bob operator_role_id (Some "default") None
  = (Ok tt, bob_operator).
Proof.
  apply (proj2 (create_then_remove Api.parse_sql_where
                  parse_sql_where_null_aware bob_operator "a-5"
                  "2018-06-02 09:00:00" (request_of root_id) bob
                  operator_role_id (Some "default") None _ _ eq_refl)).
Defined.

(** X6: Bob's global Operator row is removed, then granted again by root. *)
Lemma remove_then_create_witness :
  fst (add_user_role Api.parse_sql_where
         (snd (rm_user_role Api.parse_sql_where bob_operator
                 (request_of alice) bob operator_role_id None None))
         "a-5" "2018-06-02 09:00:00" (request_of root_id)
         bob operator_role_id None None)
  = Ok [("id", Some "a-5"); ("user_id", Some bob);
        ("role_id", Some operator_role_id);
        ("domain", None); ("tenant_id", None)].
Proof.
  apply (proj2 (remove_then_create Api.parse_sql_where
                  parse_sql_where_null_aware bob_operator
                  (request_of alice) bob operator_role_id None None));
    reflexivity.
Defined.

(** X7: Bob's global Operator row is removed twice. *)
Lemma remove_twice_witness :
  rm_user_role Api.parse_sql_where
    (snd (rm_user_role Api.parse_sql_where bob_operator (request_of alice)
            bob operator_role_id None None))
    (request_of alice) bob operator_role_id None None
  = (Raise (HTTPNotFound [("user_id", Some bob);
                          ("role_id", Some operator_role_id);
                          ("tenant_id", None); ("domain", None)]),
     snd (rm_user_role Api.parse_sql_where bob_operator (request_of alice)
            bob operator_role_id None None)).
Proof.
  exact (remove_twice Api.parse_sql_where parse_sql_where_null_aware
           bob_operator (request_of alice) (request_of alice) bob
           operator_role_id None None).
Defined.

Lemma bob_operator_unique : unique_tuples (luxon_user_role bob_operator).
Proof.
  repeat constructor; simpl; intuition discriminate.
Defined.

(** X8 on Bob's three rows, for a Create by root and a Remove. *)
Lemma unique_tuples_kept_witness :
  unique_tuples
    (luxon_user_role
       (snd (add_user_role Api.parse_sql_where bob_operator "a-5"
               "2018-06-02 09:00:00" (request_of root_id) bob
               operator_role_id (Some "default") None))) /\
  unique_tuples
    (luxon_user_role
       (snd (rm_user_role Api.parse_sql_where bob_operator
               (request_of alice) bob operator_role_id None None))).
Proof.
  destruct (unique_tuples_kept Api.parse_sql_where
              parse_sql_where_null_aware bob_operator bob_operator_unique)
    as [Hadd Hrm].
  split; [apply Hadd|apply Hrm].
Defined.

(** X9 on Bob's three rows. *)
Lemma remove_at_most_one_witness :
  length (luxon_user_role bob_operator)
  <= S (length (luxon_user_role
                  (snd (rm_user_role Api.parse_sql_where bob_operator
                          (request_of alice) bob operator_role_id
                          None None)))).
Proof.
  exact (remove_at_most_one Api.parse_sql_where parse_sql_where_null_aware
           bob_operator (request_of alice) bob operator_role_id None None
           bob_operator_unique).
Defined.

(** X10 with an empty role table. *)
Lemma no_administrator_role_witness :
  add_user_role Api.parse_sql_where
    {| luxon_role := []; luxon_user := sample_users;
       luxon_user_role := [] |}
    "a-5" "2018-06-02 09:00:00" (request_of alice) bob operator_role_id
    None None
  = (Raise TypeError,
     {| luxon_role := []; luxon_user := sample_users;
        luxon_user_role := [] |}).
Proof.
  apply (no_administrator_role Api.parse_sql_where
           parse_sql_where_null_aware).
  - discriminate.
  - intros r [].
Defined.

(** X11: Alice is Administrator globally; in domain "default" she is
    refused, globally the guard goes on to the target-user check. *)
Lemma requester_decision_witness :
  add_user_role Api.parse_sql_where alice_administrator "a-5"
    "2018-06-02 09:00:00" (request_of alice) bob operator_role_id
    (Some "default") None
  = (Raise (AccessDenied
              (not_authorized_msg alice (Some "default") None)),
     alice_administrator) /\
  check_context_auth Api.parse_sql_where (request_of alice)
    alice_administrator bob None None
  = target_check alice_administrator bob None None.
Proof.
  split.
  - apply (proj1 (requester_decision Api.parse_sql_where
                    parse_sql_where_null_aware alice_administrator "a-5"
                    "2018-06-02 09:00:00" (request_of alice) bob
                    operator_role_id (Some "default") None
                    {| r_id := admin_role_id; r_name := "Administrator" |}
                    ltac:(discriminate) eq_refl)).
    intros [r [[<-|[]] [_ [_ [Hd _]]]]]. discriminate Hd.
  - apply (proj2 (requester_decision Api.parse_sql_where
                    parse_sql_where_null_aware alice_administrator "a-5"
                    "2018-06-02 09:00:00" (request_of alice) bob
                    operator_role_id None None
                    {| r_id := admin_role_id; r_name := "Administrator" |}
                    ltac:(discriminate) eq_refl)).
    eexists. split; [left; reflexivity|]. repeat split.
Defined.

(** X12: root repeats the grant of Bob's global Operator role. *)
Lemma validation_error_after_auth_witness :
  (token_user_id (request_of root_id) = root_id \/
   holds_administrator bob_operator (token_user_id (request_of root_id))
     None None) /\
  (exists u, In u (luxon_user bob_operator) /\
             u_id u = bob /\ u_domain u = None /\ u_tenant_id u = None) /\
  (exists r, In r (luxon_user_role bob_operator) /\
             ur_user_id r = bob /\ ur_role_id r = operator_role_id /\
             ur_domain r = None /\ ur_tenant_id r = None) /\
  unique_msg bob operator_role_id None None
  = unique_msg bob operator_role_id None None.
Proof.
  exact (validation_error_after_auth Api.parse_sql_where
           parse_sql_where_null_aware bob_operator "a-5"
           "2018-06-02 09:00:00" (request_of root_id) bob operator_role_id
           None None (unique_msg bob operator_role_id None None)
           bob_operator eq_refl).
Defined.

(** X13: root grants Bob the Operator role with the domain spelled "None"
    on the empty table; the Remove spelled "None" leaves the row. *)
Lemma none_create_not_undone_witness :
  In (new_row "a-5" "2018-06-02 09:00:00" bob operator_role_id
        (Some "None") None)
    (luxon_user_role
       (snd (rm_user_role Api.parse_sql_where
               (with_assignment no_assignments
                  (new_row "a-5" "2018-06-02 09:00:00" bob operator_role_id
                     (Some "None") None))
               (request_of alice) bob operator_role_id (Some "None")
               None))) /\
  rm_user_role Api.parse_sql_where
    (with_assignment no_assignments
       (new_row "a-5" "2018-06-02 09:00:00" bob operator_role_id
          (Some "None") None))
    (request_of alice) bob operator_role_id None None
  = (Ok tt, no_assignments).
Proof.
  eapply (none_create_not_undone Api.parse_sql_where
            parse_sql_where_null_aware no_assignments "a-5"
            "2018-06-02 09:00:00" (request_of root_id) bob operator_role_id
            "None" None).
  - vm_compute. tauto.
  - reflexivity.
Defined.
